(** * sqlit: connection flow and explorer schema service

    A shallow embedding of
    - [sqlit/domains/connections/app/connection_flow.py] (credential
      population and the ordered, cancellable password prompts), and
    - [sqlit/domains/explorer/app/schema_service.py] (capability-gated,
      cache-backed schema listing),
    together with the properties the specification states about them.
    Further on: the query text area, the results table, the interface
    state machine and the mock adapter, with properties read off their
    code. *)

From stdpp Require Import gmap strings list fin_maps.

Open Scope string_scope.

(** ** Connection configuration *)

Module Config.

(** Modelled from the spec: [domains/connections/domain/config.py] is not
    part of the sources.  Section 3 describes a configuration as a target
    (unique name, engine type) plus an optional endpoint
    (host/port/username/password) and an optional tunnel (SSH
    host/port/username/password).  The attribute names [name],
    [tcp_endpoint], [tunnel] and [password] are the ones the connection flow
    reads and writes. *)
Record TcpEndpoint := {
  host : string;
  port : string;
  username : string;
  password : option string
}.

Record TunnelConfig := {
  ssh_host : string;
  ssh_port : string;
  ssh_username : string;
  ssh_password : option string
}.

Record ConnectionConfig := {
  name : string;
  db_type : string;
  tcp_endpoint : option TcpEndpoint;
  tunnel : option TunnelConfig
}.

(** In-place attribute writes [endpoint.password = password] and
    [config.tunnel.password = ssh_password], as the contents of the object
    after the write. *)
Definition set_endpoint_password (e : TcpEndpoint) (pw : option string) : TcpEndpoint :=
  {| host := host e; port := port e; username := username e; password := pw |}.

Definition set_tunnel_password (t : TunnelConfig) (pw : option string) : TunnelConfig :=
  {| ssh_host := ssh_host t; ssh_port := ssh_port t;
     ssh_username := ssh_username t; ssh_password := pw |}.

Definition set_tcp_endpoint (c : ConnectionConfig) (e : option TcpEndpoint) : ConnectionConfig :=
  {| name := name c; db_type := db_type c; tcp_endpoint := e; tunnel := tunnel c |}.

Definition set_tunnel (c : ConnectionConfig) (t : option TunnelConfig) : ConnectionConfig :=
  {| name := name c; db_type := db_type c; tcp_endpoint := tcp_endpoint c; tunnel := t |}.

(** Modelled from the spec: [ConnectionConfig.with_endpoint(password=...)]
    is absent from the sources.  Section 3: a derivation operation returns a
    new configuration with one field replaced, leaving the original
    untouched.  The spec does not say what happens without an endpoint; the
    flow only derives when one exists, and the model returns the
    configuration as it is there. *)
Definition with_endpoint (c : ConnectionConfig) (pw : string) : ConnectionConfig :=
  match tcp_endpoint c with
  | Some e => set_tcp_endpoint c (Some (set_endpoint_password e (Some pw)))
  | None => c
  end.

(** Modelled from the spec: [ConnectionConfig.with_tunnel(password=...)],
    the same derivation on the tunnel. *)
Definition with_tunnel (c : ConnectionConfig) (pw : string) : ConnectionConfig :=
  match tunnel c with
  | Some t => set_tunnel c (Some (set_tunnel_password t (Some pw)))
  | None => c
  end.

(** Modelled from the spec: [domains/connections/domain/passwords.py] is not
    part of the sources.  Section 4.1, step 2: the tunnel requires a
    password and none is available. *)
Definition needs_ssh_password (c : ConnectionConfig) : bool :=
  match tunnel c with
  | Some t => match ssh_password t with None => true | Some _ => false end
  | None => false
  end.

(** Modelled from the spec: section 4.1, step 4: the database password is
    required and missing. *)
Definition needs_db_password (c : ConnectionConfig) : bool :=
  match tcp_endpoint c with
  | Some e => match password e with None => true | Some _ => false end
  | None => false
  end.

End Config.

(** ** Connection flow *)

Module Flow.
Import Config.

(** [services.credentials_service]: both lookups are keyed by the
    connection name and return a secret or none. *)
Record CredentialsService := {
  get_password : string -> option string;
  get_ssh_password : string -> option string
}.

Record AppServices := {
  credentials_service : CredentialsService
}.

(** [connection_manager: Any | None].  The only member the flow uses is
    [populate_credentials(config)], which writes to the configuration
    object it is given; the function gives the object's contents after the
    call. *)
Record ConnectionManager := {
  populate_credentials : ConnectionConfig -> ConnectionConfig
}.

(** What the user does with one prompt.  The callback handed to a prompt is
    invoked at most once with a secret or none (section 6): never, inside
    the prompt call, or later from the interface's event loop. *)
Inductive Reply :=
| NoReply
| ReplyNow (pw : option string)
| ReplyLater (pw : option string).

(** [ConnectionPrompter]: the behaviour of an implementation of the
    protocol is the reply it gives to each request. *)
Record ConnectionPrompter := {
  ssh_reply : ConnectionConfig -> Reply;
  db_reply : ConnectionConfig -> Reply
}.

Record ConnectionFlow := {
  services : AppServices;
  connection_manager : option ConnectionManager;
  prompter : option ConnectionPrompter
}.

(** Calls the flow makes on its collaborators. *)
Inductive Event :=
| PromptSsh (config : ConnectionConfig)
| PromptDb (config : ConnectionConfig)
| Ready (config : ConnectionConfig).

(** The closures [start] and [_with_db_password] create, each with the
    configuration it captures ([self] and [on_ready] are the same for the
    whole flow). *)
Inductive Closure :=
| on_ssh_password_closure (config : ConnectionConfig)
| on_db_password_closure (config : ConnectionConfig).

Record World := {
  (* contents of the configuration object the caller passed to [start] *)
  config_object : ConnectionConfig;
  (* calls made so far, oldest first *)
  events : list Event;
  (* callbacks the prompter keeps for later, each with its argument *)
  deferred : list (Closure * option string)
}.

Definition M (A : Type) : Type := World -> A * World.

#[global] Instance M_ret : MRet M := fun A a w => (a, w).
#[global] Instance M_bind : MBind M :=
  fun A B f m w => let '(a, w') := m w in f a w'.

Definition emit (e : Event) : M unit := fun w =>
  (tt, {| config_object := config_object w;
          events := events w ++ [e];
          deferred := deferred w |}).

Definition defer (k : Closure) (pw : option string) : M unit := fun w =>
  (tt, {| config_object := config_object w;
          events := events w;
          deferred := deferred w ++ [(k, pw)] |}).

Definition take_deferred : M (list (Closure * option string)) := fun w =>
  (deferred w, {| config_object := config_object w;
                  events := events w;
                  deferred := [] |}).

Definition write_config (c : ConnectionConfig) : M unit := fun w =>
  (tt, {| config_object := c; events := events w; deferred := deferred w |}).

Definition read_config : M ConnectionConfig := fun w => (config_object w, w).

Definition init_world (config : ConnectionConfig) : World :=
  {| config_object := config; events := []; deferred := [] |}.

Definition is_none {A} (o : option A) : bool :=
  match o with None => true | Some _ => false end.

(** The contents of [config] after [populate_credentials_if_missing]. *)
Definition populated_config
    (self : ConnectionFlow) (config : ConnectionConfig) : ConnectionConfig :=
  match connection_manager self with
  | Some cm => populate_credentials cm config
  | None =>
    let endpoint := tcp_endpoint config in
    if match endpoint with
       | Some e =>
           negb (is_none (password e)) &&
           match tunnel config with
           | None => true
           | Some t => negb (is_none (ssh_password t))
           end
       | None => false
       end
    then config
    else
      let service := credentials_service (services self) in
      let config1 :=
        match endpoint with
        | Some e =>
            if is_none (password e) then
              match get_password service (name config) with
              | Some pw =>
                  set_tcp_endpoint config (Some (set_endpoint_password e (Some pw)))
              | None => config
              end
            else config
        | None => config
        end in
      match tunnel config1 with
      | Some t =>
          if is_none (ssh_password t) then
            match get_ssh_password service (name config1) with
            | Some pw =>
                set_tunnel config1 (Some (set_tunnel_password t (Some pw)))
            | None => config1
            end
          else config1
      | None => config1
      end
  end.

(** [populate_credentials_if_missing(config)] writes to the object it is
    given, which is the one the caller of [start] holds. *)
Definition populate_credentials_if_missing (self : ConnectionFlow) : M unit :=
  config ← read_config ;
  write_config (populated_config self config).

Definition on_ready (config : ConnectionConfig) : M unit := emit (Ready config).

Definition on_db_password (config : ConnectionConfig) (password : option string) : M unit :=
  match password with
  | None => mret tt
  | Some pw =>
      let temp_config := with_endpoint config pw in
      on_ready temp_config
  end.

(** [prompter.prompt_db_password(config, on_done)], where [on_done] is the
    [on_db_password] closure over [config]. *)
Definition prompt_db_password (p : ConnectionPrompter) (config : ConnectionConfig) : M unit :=
  emit (PromptDb config) ;;
  match db_reply p config with
  | NoReply => mret tt
  | ReplyNow pw => on_db_password config pw
  | ReplyLater pw => defer (on_db_password_closure config) pw
  end.

Definition _with_db_password (self : ConnectionFlow) (config : ConnectionConfig) : M unit :=
  if needs_db_password config then
    match prompter self with
    | None => mret tt
    | Some p => prompt_db_password p config
    end
  else on_ready config.

Definition on_ssh_password (self : ConnectionFlow) (config : ConnectionConfig)
    (password : option string) : M unit :=
  match password with
  | None => mret tt
  | Some pw =>
      let temp_config := with_tunnel config pw in
      _with_db_password self temp_config
  end.

(** [prompter.prompt_ssh_password(config, on_done)], where [on_done] is the
    [on_ssh_password] closure over [config]. *)
Definition prompt_ssh_password (self : ConnectionFlow) (p : ConnectionPrompter)
    (config : ConnectionConfig) : M unit :=
  emit (PromptSsh config) ;;
  match ssh_reply p config with
  | NoReply => mret tt
  | ReplyNow pw => on_ssh_password self config pw
  | ReplyLater pw => defer (on_ssh_password_closure config) pw
  end.

(** [start(config, on_ready)], run on the world whose [config_object] is
    the object passed as [config]. *)
Definition start (self : ConnectionFlow) : M unit :=
  populate_credentials_if_missing self ;;
  config ← read_config ;
  if needs_ssh_password config then
    match prompter self with
    | None => mret tt
    | Some p => prompt_ssh_password self p config
    end
  else _with_db_password self config.

(** The interface's event loop calling a callback the prompter kept. *)
Definition invoke (self : ConnectionFlow) (k : Closure) (pw : option string) : M unit :=
  match k with
  | on_ssh_password_closure config => on_ssh_password self config pw
  | on_db_password_closure config => on_db_password config pw
  end.

Fixpoint run_pending (self : ConnectionFlow) (q : list (Closure * option string)) : M unit :=
  match q with
  | [] => mret tt
  | (k, pw) :: q' => invoke self k pw ;; run_pending self q'
  end.

Definition deliver (self : ConnectionFlow) : M unit :=
  q ← take_deferred ; run_pending self q.

(** One whole flow: the call of [start], then the later callbacks.  A
    deferred SSH callback can defer one DB callback, so two rounds empty the
    queue ([run_flow_quiescent]). *)
Definition run_flow (self : ConnectionFlow) : M unit :=
  start self ;; deliver self ;; deliver self.

Definition trace (self : ConnectionFlow) (config : ConnectionConfig) : list Event :=
  events (snd (run_flow self (init_world config))).

Definition ready_count (l : list Event) : nat :=
  length (List.filter (fun e => match e with Ready _ => true | _ => false end) l).

Definition is_prompt_ssh (e : Event) : bool :=
  match e with PromptSsh _ => true | _ => false end.

(** "Both passwords already present": the endpoint password and, when a
    tunnel is configured, the tunnel password; the guard of the early return
    in [populate_credentials_if_missing]. *)
Definition both_passwords_present (config : ConnectionConfig) : bool :=
  match tcp_endpoint config with
  | Some e =>
      negb (is_none (password e)) &&
      match tunnel config with
      | None => true
      | Some t => negb (is_none (ssh_password t))
      end
  | None => false
  end.

(** The prompt callback is invoked with no value. *)
Definition cancelled (r : Reply) : Prop :=
  r = ReplyNow None \/ r = ReplyLater None.

(** The prompt callback is invoked with the secret [pw]. *)
Definition supplied (r : Reply) (pw : string) : Prop :=
  r = ReplyNow (Some pw) \/ r = ReplyLater (Some pw).

End Flow.

(** ** Explorer schema service *)

Module Schema.

(** A call either returns a value or raises. *)
Inductive Result (A : Type) :=
| Ok (a : A)
| Raise (exn : string).
Arguments Ok {A} a.
Arguments Raise {A} exn.

(** Values the inspector hands back and the cache keeps ([Any] in the
    source): strings and tuples are all the listing code takes apart. *)
#[warnings="-register-all"] Inductive Val :=
| VStr (s : string)
| VTuple (items : list Val).

(** [provider.capabilities] *)
Record Capabilities := {
  supports_indexes : bool;
  supports_triggers : bool;
  supports_sequences : bool;
  supports_stored_procedures : bool;
  supports_multiple_databases : bool
}.

(** Schema descriptors, with the attributes the listing reads. *)
Record IndexInfo := { index_name : string; index_table_name : string }.
Record TriggerInfo := { trigger_name : string; trigger_table_name : string }.
Record SequenceInfo := { sequence_name : string }.

(** Calls the adapter's schema inspector receives.  The connection handle
    is the session's own in every call and is left out. *)
Inductive AdapterCall :=
| GetTables (db_arg : option string)
| GetViews (db_arg : option string)
| GetIndexes (db_arg : option string)
| GetTriggers (db_arg : option string)
| GetSequences (db_arg : option string)
| GetProcedures (db_arg : option string).

Definition call_db_arg (c : AdapterCall) : option string :=
  match c with
  | GetTables d | GetViews d | GetIndexes d
  | GetTriggers d | GetSequences d | GetProcedures d => d
  end.

(** [provider.schema_inspector].  The database behind the adapter changes
    over time and a call can fail, so each method answers from the calls the
    adapter has received before and either returns or raises.  The optional
    extension interfaces ([isinstance(inspector, IndexInspector)] and the
    like) are present or absent. *)
Record SchemaInspector := {
  get_tables : list AdapterCall -> option string -> Result (list Val);
  get_views : list AdapterCall -> option string -> Result (list Val);
  index_inspector :
    option (list AdapterCall -> option string -> Result (list IndexInfo));
  trigger_inspector :
    option (list AdapterCall -> option string -> Result (list TriggerInfo));
  sequence_inspector :
    option (list AdapterCall -> option string -> Result (list SequenceInfo));
  procedure_inspector :
    option (list AdapterCall -> option string -> Result (list Val))
}.

Record Provider := {
  schema_inspector : SchemaInspector;
  capabilities : Capabilities
}.

(** [ConnectionSession]: the connection handle and the executor show in
    the world below. *)
Record ConnectionSession := {
  provider : Provider
}.

Record ExplorerSchemaService := {
  session : ConnectionSession;
  db_arg_resolver : option (option string -> option string)
}.

Record World := {
  (* units of work handed to [session.executor], oldest first *)
  submitted : list AdapterCall;
  (* calls the inspector has received, oldest first *)
  adapter_calls : list AdapterCall;
  (* [self.object_cache], the dictionary object the service was built with *)
  object_cache : gmap string (gmap string (list Val))
}.

Definition M (A : Type) : Type := World -> Result A * World.

#[global] Instance M_ret : MRet M := fun A a w => (Ok a, w).
#[global] Instance M_bind : MBind M :=
  fun A B f m w =>
    match m w with
    | (Ok a, w') => f a w'
    | (Raise e, w') => (Raise e, w')
    end.

Definition lift {A} (r : Result A) : M A := fun w => (r, w).

Definition read_cache : M (gmap string (gmap string (list Val))) :=
  fun w => (Ok (object_cache w), w).

Definition write_cache (c : gmap string (gmap string (list Val))) : M unit :=
  fun w => (Ok tt, {| submitted := submitted w;
                      adapter_calls := adapter_calls w;
                      object_cache := c |}).

Definition _resolve_db_arg (self : ExplorerSchemaService)
    (database : option string) : option string :=
  match db_arg_resolver self with
  | Some resolver => resolver database
  | None => database
  end.

(** [self.session.executor.submit(fn, *args).result()]: the unit of work is
    queued, the worker runs it against the adapter, and the caller waits for
    the value or the exception. *)
Definition _run {A} (call : AdapterCall)
    (fn : list AdapterCall -> Result A) : M A := fun w =>
  (fn (adapter_calls w),
   {| submitted := submitted w ++ [call];
      adapter_calls := adapter_calls w ++ [call];
      object_cache := object_cache w |}).

(** [database or "__default__"] *)
Definition cache_key (database : option string) : string :=
  match database with
  | Some d => if decide (d = "") then "__default__" else d
  | None => "__default__"
  end.

(** The local function [cached] of [list_folder_items]; [cache_key] is the
    variable it captures. *)
Definition cached (cache_key : string) (key : string)
    (loader : M (list Val)) : M (list Val) :=
  obj_cache ← read_cache ;
  match obj_cache !! cache_key ≫= (.!! key) with
  | Some data => mret data
  | None =>
      data ← loader ;
      obj_cache ← read_cache ;
      (match obj_cache !! cache_key with
       | Some _ => mret tt
       | None => write_cache (<[cache_key := ∅]> obj_cache)
       end) ;;
      obj_cache ← read_cache ;
      write_cache (alter (insert key data) cache_key obj_cache) ;;
      mret data
  end.

(** [for schema, name in raw_data]: a two-item tuple unpacks into its
    items, a two-character string into its characters, and anything else
    raises [ValueError]. *)
Definition unpack2 (v : Val) : Result (Val * Val) :=
  match v with
  | VTuple [a; b] => Ok (a, b)
  | VStr (String a (String b EmptyString)) =>
      Ok (VStr (String a EmptyString), VStr (String b EmptyString))
  | _ => Raise "ValueError"
  end.

Fixpoint unpack_rows (tag : string) (raw_data : list Val)
    : Result (list (string * Val * Val)) :=
  match raw_data with
  | [] => Ok []
  | v :: rest =>
      match unpack2 v with
      | Ok (schema, name) =>
          match unpack_rows tag rest with
          | Ok rows => Ok ((tag, schema, name) :: rows)
          | Raise e => Raise e
          end
      | Raise e => Raise e
      end
  end.

Definition list_folder_items (self : ExplorerSchemaService)
    (folder_type : string) (database : option string)
    : M (list (string * Val * Val)) :=
  let inspector := schema_inspector (provider (session self)) in
  let caps := capabilities (provider (session self)) in
  let db_arg := _resolve_db_arg self database in
  let cache_key := cache_key database in
  if decide (folder_type = "tables") then
    raw_data ← cached cache_key "tables"
      (_run (GetTables db_arg) (fun h => get_tables inspector h db_arg)) ;
    lift (unpack_rows "table" raw_data)
  else if decide (folder_type = "views") then
    raw_data ← cached cache_key "views"
      (_run (GetViews db_arg) (fun h => get_views inspector h db_arg)) ;
    lift (unpack_rows "view" raw_data)
  else if decide (folder_type = "indexes") then
    match supports_indexes caps, index_inspector inspector with
    | true, Some get_indexes =>
        items ← _run (GetIndexes db_arg) (fun h => get_indexes h db_arg) ;
        mret (map (fun item =>
                ("index", VStr (index_name item), VStr (index_table_name item)))
              items)
    | _, _ => mret []
    end
  else if decide (folder_type = "triggers") then
    match supports_triggers caps, trigger_inspector inspector with
    | true, Some get_triggers =>
        items ← _run (GetTriggers db_arg) (fun h => get_triggers h db_arg) ;
        mret (map (fun item =>
                ("trigger", VStr (trigger_name item), VStr (trigger_table_name item)))
              items)
    | _, _ => mret []
    end
  else if decide (folder_type = "sequences") then
    match supports_sequences caps, sequence_inspector inspector with
    | true, Some get_sequences =>
        items ← _run (GetSequences db_arg) (fun h => get_sequences h db_arg) ;
        mret (map (fun item => ("sequence", VStr (sequence_name item), VStr ""))
              items)
    | _, _ => mret []
    end
  else if decide (folder_type = "procedures") then
    match supports_stored_procedures caps, procedure_inspector inspector with
    | true, Some get_procedures =>
        raw_data ← cached cache_key "procedures"
          (_run (GetProcedures db_arg) (fun h => get_procedures h db_arg)) ;
        mret (map (fun name => ("procedure", VStr "", name)) raw_data)
    | _, _ => mret []
    end
  else mret [].

(** The folder kinds [list_folder_items] dispatches on, and those it gates
    by capability. *)
Definition folder_kinds : list string :=
  ["tables"; "views"; "indexes"; "triggers"; "sequences"; "procedures"].

Definition gated_kinds : list string :=
  ["indexes"; "triggers"; "sequences"; "procedures"].

(** The session's capability flag for a gated kind. *)
Definition capability_flag (caps : Capabilities) (kind : string) : bool :=
  if decide (kind = "indexes") then supports_indexes caps
  else if decide (kind = "triggers") then supports_triggers caps
  else if decide (kind = "sequences") then supports_sequences caps
  else if decide (kind = "procedures") then supports_stored_procedures caps
  else false.

(** Whether the inspector implements the extension interface of a gated
    kind. *)
Definition implements_extension (inspector : SchemaInspector) (kind : string) : bool :=
  if decide (kind = "indexes") then bool_decide (is_Some (index_inspector inspector))
  else if decide (kind = "triggers") then bool_decide (is_Some (trigger_inspector inspector))
  else if decide (kind = "sequences") then bool_decide (is_Some (sequence_inspector inspector))
  else if decide (kind = "procedures") then bool_decide (is_Some (procedure_inspector inspector))
  else false.

(** The kinds whose listing goes through [cached] for this service:
    tables and views, and procedures when the engine declares stored
    procedures and the inspector implements [ProcedureInspector]. *)
Definition memoized (self : ExplorerSchemaService) (kind : string) : Prop :=
  kind = "tables" \/ kind = "views" \/
  (kind = "procedures" /\
   supports_stored_procedures (capabilities (provider (session self))) = true /\
   is_Some (procedure_inspector (schema_inspector (provider (session self))))).

(** The adapter call behind a memoized kind, and the inspector's answer to
    it after the calls [history]. *)
Definition loader_call (kind : string) (db_arg : option string) : AdapterCall :=
  if decide (kind = "tables") then GetTables db_arg
  else if decide (kind = "views") then GetViews db_arg
  else GetProcedures db_arg.

Definition loader_answer (self : ExplorerSchemaService) (kind : string)
    (history : list AdapterCall) (db_arg : option string) : Result (list Val) :=
  let inspector := schema_inspector (provider (session self)) in
  if decide (kind = "tables") then get_tables inspector history db_arg
  else if decide (kind = "views") then get_views inspector history db_arg
  else match procedure_inspector inspector with
       | Some get_procedures => get_procedures history db_arg
       | None => Raise "AttributeError"
       end.

(** The cached entry for [kind] in the partition [key]. *)
Definition entry (w : World) (key kind : string) : option (list Val) :=
  object_cache w !! key ≫= (.!! kind).

(** The rows a listing builds from the raw data of a memoized kind. *)
Definition rows_of (kind : string) (raw_data : list Val)
    : Result (list (string * Val * Val)) :=
  if decide (kind = "tables") then unpack_rows "table" raw_data
  else if decide (kind = "views") then unpack_rows "view" raw_data
  else Ok (map (fun name => ("procedure", VStr "", name)) raw_data).

(** The world once the worker has run one unit of work, and the world with
    [data] stored under [kind] in the partition [key]. *)
Definition ran (call : AdapterCall) (w : World) : World :=
  {| submitted := submitted w ++ [call];
     adapter_calls := adapter_calls w ++ [call];
     object_cache := object_cache w |}.

Definition stored (key kind : string) (data : list Val) (w : World) : World :=
  {| submitted := submitted w;
     adapter_calls := adapter_calls w;
     object_cache :=
       <[key := <[kind := data]> (default ∅ (object_cache w !! key))]>
         (object_cache w) |}.

(** The world after one more call of [list_folder_items]. *)
Definition after (self : ExplorerSchemaService) (folder_type : string)
    (database : option string) (w : World) : World :=
  snd (list_folder_items self folder_type database w).

(** The spec's cache semantics, in its words: the partition key is derived
    from the resolved database argument, with the sentinel for "no explicit
    database". *)
Definition resolved_cache_key (self : ExplorerSchemaService)
    (database : option string) : string :=
  cache_key (_resolve_db_arg self database).

(** A call touches no partition but the one keyed by the resolved
    argument. *)
Definition partition_from_resolved (self : ExplorerSchemaService)
    (folder_type : string) (database : option string) (w : World) : Prop :=
  forall k, k <> resolved_cache_key self database ->
    object_cache (after self folder_type database w) !! k = object_cache w !! k.

(** The spec's memoization property, in its words: after two calls for
    the selector [d], a call for a different selector [d'] reaches the
    adapter again. *)
Definition other_selector_reaches_adapter (self : ExplorerSchemaService)
    (folder_type : string) (d d' : option string) (w : World) : Prop :=
  d <> d' ->
  let w2 := after self folder_type d (after self folder_type d w) in
  length (adapter_calls (after self folder_type d' w2))
    = S (length (adapter_calls w2)).

End Schema.

(** Concrete flows and configurations. *)
Module Samples.
Import Config Flow.

Definition endpoint_with (pw : option string) : TcpEndpoint :=
  {| host := "db.internal"; port := "5432"; username := "app"; password := pw |}.

Definition tunnel_with (pw : option string) : TunnelConfig :=
  {| ssh_host := "bastion"; ssh_port := "22"; ssh_username := "ops";
     ssh_password := pw |}.

Definition cfg (db ssh : option string) : ConnectionConfig :=
  {| name := "prod"; db_type := "postgresql";
     tcp_endpoint := Some (endpoint_with db);
     tunnel := Some (tunnel_with ssh) |}.

Definition cfg_full : ConnectionConfig := cfg (Some "dbpw") (Some "sshpw").
Definition cfg_none : ConnectionConfig := cfg None None.
Definition cfg_no_db : ConnectionConfig := cfg None (Some "sshpw").

Definition empty_store : CredentialsService :=
  {| get_password := fun _ => None; get_ssh_password := fun _ => None |}.

Definition prompter_supplying : ConnectionPrompter :=
  {| ssh_reply := fun _ => ReplyLater (Some "s1");
     db_reply := fun _ => ReplyLater (Some "secret1") |}.

Definition prompter_cancel_ssh : ConnectionPrompter :=
  {| ssh_reply := fun _ => ReplyLater None;
     db_reply := fun _ => ReplyNow (Some "secret1") |}.

Definition flow_with (p : option ConnectionPrompter) : ConnectionFlow :=
  {| services := {| credentials_service := empty_store |};
     connection_manager := None;
     prompter := p |}.

Definition flow_prompting : ConnectionFlow := flow_with (Some prompter_supplying).
Definition flow_cancel_ssh : ConnectionFlow := flow_with (Some prompter_cancel_ssh).
Definition flow_no_prompter : ConnectionFlow := flow_with None.

End Samples.

(** Concrete sessions, after the mock adapters of [sqlit/mocks.py]. *)
Module SchemaSamples.
Import Schema.

Definition row (schema name : string) : Val := VTuple [VStr schema; VStr name].

Definition postgres_tables : list Val :=
  [row "public" "users"; row "public" "accounts"].

(** A mock adapter: no views, no optional interfaces. *)
Definition mock_inspector : SchemaInspector :=
  {| get_tables := fun _ _ => Ok postgres_tables;
     get_views := fun _ _ => Ok [];
     index_inspector := None;
     trigger_inspector := None;
     sequence_inspector := None;
     procedure_inspector := None |}.

Definition mock_capabilities : Capabilities :=
  {| supports_indexes := false;
     supports_triggers := false;
     supports_sequences := false;
     supports_stored_procedures := false;
     supports_multiple_databases := false |}.

Definition service_with (resolver : option (option string -> option string))
    : ExplorerSchemaService :=
  {| session := {| provider := {| schema_inspector := mock_inspector;
                                  capabilities := mock_capabilities |} |};
     db_arg_resolver := resolver |}.

(** The default service, and one for an engine that addresses the current
    database through the connection and ignores the selector. *)
Definition mock_service : ExplorerSchemaService := service_with None.
Definition implicit_db_service : ExplorerSchemaService :=
  service_with (Some (fun _ => None)).

Definition fresh_world : World :=
  {| submitted := []; adapter_calls := []; object_cache := ∅ |}.

End SchemaSamples.

(** ** More of the connection flow: statement-level definitions *)

Module FlowMore.
Import Config Flow.

(** A prompter that gives the same answers, each inside the prompt call. *)
Definition at_once (r : Reply) : Reply :=
  match r with
  | ReplyLater pw => ReplyNow pw
  | _ => r
  end.

Definition answering_at_once (p : ConnectionPrompter) : ConnectionPrompter :=
  {| ssh_reply := fun c => at_once (ssh_reply p c);
     db_reply := fun c => at_once (db_reply p c) |}.

(** What a reply hands to the callback, if it hands it anything. *)
Definition answer (r : Reply) : option string :=
  match r with
  | NoReply => None
  | ReplyNow pw | ReplyLater pw => pw
  end.

(** The events of the DB stage and of a whole flow, written out without
    callbacks. *)
Definition db_stage_events (p : option ConnectionPrompter)
    (c : ConnectionConfig) : list Event :=
  if needs_db_password c then
    match p with
    | None => []
    | Some p =>
        PromptDb c ::
        match answer (db_reply p c) with
        | Some pw => [Ready (with_endpoint c pw)]
        | None => []
        end
    end
  else [Ready c].

Definition flow_events (self : ConnectionFlow) (config : ConnectionConfig)
    : list Event :=
  let c0 := populated_config self config in
  if needs_ssh_password c0 then
    match prompter self with
    | None => []
    | Some p =>
        PromptSsh c0 ::
        match answer (ssh_reply p c0) with
        | Some pw => db_stage_events (prompter self) (with_tunnel c0 pw)
        | None => []
        end
    end
  else db_stage_events (prompter self) c0.

Definition with_prompter (self : ConnectionFlow)
    (p : option ConnectionPrompter) : ConnectionFlow :=
  {| services := services self;
     connection_manager := connection_manager self;
     prompter := p |}.

Definition prompt_ssh_count (l : list Event) : nat :=
  length (List.filter is_prompt_ssh l).

Definition prompt_db_count (l : list Event) : nat :=
  length (List.filter (fun e => match e with PromptDb _ => true | _ => false end) l).

(** The password a field holds after the store has been asked for a
    missing one. *)
Definition filled (current from_store : option string) : option string :=
  match current with
  | Some pw => Some pw
  | None => from_store
  end.

(** A configuration with each missing password taken from the store,
    looked up under the configuration's name, and everything else as it
    is. *)
Definition filled_from_store (store : CredentialsService)
    (config : ConnectionConfig) : ConnectionConfig :=
  {| name := name config;
     db_type := db_type config;
     tcp_endpoint :=
       (fun e => set_endpoint_password e
                   (filled (password e) (get_password store (name config))))
         <$> tcp_endpoint config;
     tunnel :=
       (fun t => set_tunnel_password t
                   (filled (ssh_password t) (get_ssh_password store (name config))))
         <$> tunnel config |}.

(** A store that knows both passwords of the sample connection. *)
Definition full_store : CredentialsService :=
  {| get_password := fun n => if decide (n = "prod") then Some "dbpw" else None;
     get_ssh_password := fun n => if decide (n = "prod") then Some "sshpw" else None |}.

Definition flow_with_store (store : CredentialsService) : ConnectionFlow :=
  {| services := {| credentials_service := store |};
     connection_manager := None;
     prompter := None |}.

End FlowMore.

(** A session whose adapter hands back a row that is not a pair. *)
Module SchemaMoreSamples.
Import Schema.

Definition malformed_inspector : SchemaInspector :=
  {| get_tables := fun _ _ => Ok [VTuple [VStr "public"; VStr "users"; VStr "extra"]];
     get_views := fun _ _ => Ok [];
     index_inspector :=
       Some (fun _ _ => Ok [{| index_name := "ix_users"; index_table_name := "users" |}]);
     trigger_inspector := None;
     sequence_inspector := None;
     procedure_inspector := None |}.

Definition indexed_capabilities : Capabilities :=
  {| supports_indexes := true;
     supports_triggers := false;
     supports_sequences := false;
     supports_stored_procedures := false;
     supports_multiple_databases := false |}.

Definition malformed_service : ExplorerSchemaService :=
  {| session := {| provider := {| schema_inspector := malformed_inspector;
                                  capabilities := indexed_capabilities |} |};
     db_arg_resolver := None |}.

(** A well-formed raw row: the tuple [(schema, name)]. *)
Definition pair_row (p : Val * Val) : Val := VTuple [p.1; p.2].

(** The selectors that share the sentinel partition. *)
Definition sentinel_selectors : list (option string) :=
  [None; Some ""; Some "__default__"].

(** An adapter whose connection has dropped. *)
Definition failing_inspector : SchemaInspector :=
  {| get_tables := fun _ _ => Raise "OperationalError";
     get_views := fun _ _ => Raise "OperationalError";
     index_inspector := None;
     trigger_inspector := None;
     sequence_inspector := None;
     procedure_inspector := None |}.

Definition failing_service : ExplorerSchemaService :=
  {| session := {| provider := {| schema_inspector := failing_inspector;
                                  capabilities := SchemaSamples.mock_capabilities |} |};
     db_arg_resolver := None |}.

End SchemaMoreSamples.

(** ** Explorer schema service: databases, columns and definitions *)

Module SchemaDetail.
Import Schema.

(** The other calls the schema inspector receives (the connection handle
    is left out as before). *)
Inductive Call :=
| GetDatabases
| GetColumns (name : string) (db_arg schema : option string)
| GetIndexDefinition (name table_name : string) (db_arg : option string)
| GetTriggerDefinition (name table_name : string) (db_arg : option string)
| GetSequenceDefinition (name : string) (db_arg : option string).

(** The inspector's other methods.  Column descriptors and definitions
    pass through the service as they are.  The three definition methods
    belong to the optional interfaces and are only reached when the
    inspector implements them. *)
Record DetailInspector := {
  get_databases : list Call -> Result (list string);
  get_columns :
    list Call -> string -> option string -> option string -> Result (list Val);
  inspector_index_definition :
    list Call -> string -> string -> option string -> Result (option Val);
  inspector_trigger_definition :
    list Call -> string -> string -> option string -> Result (option Val);
  inspector_sequence_definition :
    list Call -> string -> option string -> Result (option Val)
}.

(** The service with both halves of its inspector. *)
Record Service := {
  base : ExplorerSchemaService;
  detail : DetailInspector
}.

Record World := {
  submitted : list Call;
  adapter_calls : list Call;
  object_cache : gmap string (gmap string (list Val))
}.

Definition M (A : Type) : Type := World -> Result A * World.

#[global] Instance M_ret : MRet M := fun A a w => (Ok a, w).
#[global] Instance M_bind : MBind M :=
  fun A B f m w =>
    match m w with
    | (Ok a, w') => f a w'
    | (Raise e, w') => (Raise e, w')
    end.

Definition _run {A} (call : Call) (fn : list Call -> Result A) : M A := fun w =>
  (fn (adapter_calls w),
   {| submitted := submitted w ++ [call];
      adapter_calls := adapter_calls w ++ [call];
      object_cache := object_cache w |}).

Definition list_databases (self : Service) : M (list string) :=
  let inspector := detail self in
  _run GetDatabases (fun h => get_databases inspector h).

Definition list_columns (self : Service)
    (database schema : option string) (name : string) : M (list Val) :=
  let inspector := detail self in
  let db_arg := _resolve_db_arg (base self) database in
  _run (GetColumns name db_arg schema)
    (fun h => get_columns inspector h name db_arg schema).

Definition get_index_definition (self : Service)
    (database : option string) (name table_name : string) : M (option Val) :=
  match index_inspector (schema_inspector (provider (session (base self)))) with
  | None => mret None
  | Some _ =>
      let db_arg := _resolve_db_arg (base self) database in
      _run (GetIndexDefinition name table_name db_arg)
        (fun h => inspector_index_definition (detail self) h name table_name db_arg)
  end.

Definition get_trigger_definition (self : Service)
    (database : option string) (name table_name : string) : M (option Val) :=
  match trigger_inspector (schema_inspector (provider (session (base self)))) with
  | None => mret None
  | Some _ =>
      let db_arg := _resolve_db_arg (base self) database in
      _run (GetTriggerDefinition name table_name db_arg)
        (fun h => inspector_trigger_definition (detail self) h name table_name db_arg)
  end.

Definition get_sequence_definition (self : Service)
    (database : option string) (name : string) : M (option Val) :=
  match sequence_inspector (schema_inspector (provider (session (base self)))) with
  | None => mret None
  | Some _ =>
      let db_arg := _resolve_db_arg (base self) database in
      _run (GetSequenceDefinition name db_arg)
        (fun h => inspector_sequence_definition (detail self) h name db_arg)
  end.

(** A database whose table gains a column between two calls. *)
Definition growing_detail : DetailInspector :=
  {| get_databases := fun _ => Ok ["postgres"];
     get_columns := fun h _ _ _ =>
       match h with
       | [] => Ok [VStr "id"]
       | _ => Ok [VStr "id"; VStr "email"]
       end;
     inspector_index_definition := fun _ name _ _ => Ok (Some (VStr name));
     inspector_trigger_definition := fun _ _ _ _ => Ok None;
     inspector_sequence_definition := fun _ _ _ => Ok None |}.

Definition fresh_world : World :=
  {| submitted := []; adapter_calls := []; object_cache := ∅ |}.

(** The world once the worker has run one unit of work. *)
Definition ran (call : Call) (w : World) : World :=
  {| submitted := submitted w ++ [call];
     adapter_calls := adapter_calls w ++ [call];
     object_cache := object_cache w |}.

(** The mock session's service, and one whose inspector implements the
    index interface while the engine does not declare indexes. *)
Definition mock_detail_service : Service :=
  {| base := SchemaSamples.mock_service; detail := growing_detail |}.

Definition undeclared_index_service : Service :=
  {| base :=
       {| session :=
            {| provider :=
                 {| schema_inspector := SchemaMoreSamples.malformed_inspector;
                    capabilities := SchemaSamples.mock_capabilities |} |};
          db_arg_resolver := None |};
     detail := growing_detail |}.

End SchemaDetail.

(** ** Query text area ([sqlit/shared/ui/widgets_text_area.py]) *)

Module TextArea.
#[local] Open Scope list_scope.

(** Key names are strings of characters; one [ascii] stands for one
    character of the key name. *)

(** [QueryTextArea._KEY_NORMALIZATION] *)
Definition _KEY_NORMALIZATION : gmap string string :=
  list_to_map
    [ ("super+v", "ctrl+v");
      ("ctrl+shift+v", "ctrl+v");
      ("super+shift+v", "ctrl+v");
      ("super+c", "ctrl+c");
      ("ctrl+shift+c", "ctrl+c");
      ("super+shift+c", "ctrl+c");
      ("super+x", "ctrl+x");
      ("ctrl+shift+x", "ctrl+x");
      ("super+shift+x", "ctrl+x");
      ("super+a", "ctrl+a");
      ("super+z", "ctrl+z");
      ("super+y", "ctrl+y");
      ("super+shift+z", "ctrl+y");
      ("ctrl+shift+z", "ctrl+y");
      ("shift+backspace", "backspace");
      ("shift+delete", "delete") ].

(** [self._KEY_NORMALIZATION.get(key, key)] *)
Definition _normalize_key (key : string) : string :=
  default key (_KEY_NORMALIZATION !! key).

(** [sqlit.core.vim.VimMode] is not part of the sources; [INSERT] is the
    member the widget names, every other member is [OTHER]. *)
Inductive VimMode := INSERT | OTHER.

(** What the widget sees of [self.app]: the attributes it reads with
    [getattr] and the methods it looks for with [hasattr]. *)
Record App := {
  vim_mode : option VimMode;
  autocomplete_visible : bool;
  has_attr : string -> bool
}.

(** What handling one key does, in order. *)
Inductive Effect :=
| AppCall (method : string)
| PreventDefault
| Stop
| SuppressAutocompleteOnNewline
| SuperOnKey (key : string).

#[global] Instance Effect_eq_dec : EqDecision Effect.
Proof. solve_decision. Defined.

(** The widget: [self.text] and [self._last_text]. *)
Record Widget := {
  text : string;
  _last_text : string
}.

Definition _is_insert_mode (app : App) : bool :=
  match vim_mode app with
  | Some INSERT => true
  | _ => false
  end.

Definition _is_text_modifying_key (key : string) : bool :=
  if decide (String.length key = 1) then true
  else bool_decide (key ∈ ["backspace"; "delete"; "enter"; "tab"]).

(** [if hasattr(self.app, name): self.app.name()] *)
Definition call_if_present (app : App) (method : string) : list Effect :=
  if has_attr app method then [AppCall method] else [].

Definition _push_undo_if_changed (app : App) (self : Widget)
    : list Effect * Widget :=
  let current_text := text self in
  if decide (current_text <> _last_text self) then
    (call_if_present app "_push_undo_state",
     {| text := text self; _last_text := current_text |})
  else ([], self).

(** [_on_key(event)] on the key [event.key]: the effects, and the widget
    afterwards. *)
Definition _on_key (app : App) (self : Widget) (key : string)
    : list Effect * Widget :=
  let normalized_key := _normalize_key key in
  (* from the undo check on, where a key that is not a clipboard shortcut
     goes *)
  let rest :=
    if decide (normalized_key = "ctrl+z") then
      (call_if_present app "action_undo" ++ [PreventDefault; Stop], self)
    else if decide (normalized_key = "ctrl+y") then
      (call_if_present app "action_redo" ++ [PreventDefault; Stop], self)
    else
      let on_enter :=
        if decide (key = "enter") then
          if autocomplete_visible app then
            call_if_present app "_hide_autocomplete"
              ++ [SuppressAutocompleteOnNewline]
          else []
        else [] in
      let '(pushed, self) :=
        if _is_text_modifying_key normalized_key
        then _push_undo_if_changed app self
        else ([], self) in
      (on_enter ++ pushed ++ [SuperOnKey key], self) in
  if bool_decide (normalized_key ∈ ["ctrl+a"; "ctrl+c"; "ctrl+v"]) then
    if negb (_is_insert_mode app) then ([PreventDefault; Stop], self)
    else if decide (normalized_key = "ctrl+a") then
      (call_if_present app "action_select_all" ++ [PreventDefault; Stop], self)
    else if decide (normalized_key = "ctrl+c") then
      (call_if_present app "action_copy_selection" ++ [PreventDefault; Stop], self)
    else if decide (normalized_key = "ctrl+v") then
      let '(pushed, self) := _push_undo_if_changed app self in
      (pushed ++ call_if_present app "action_paste" ++ [PreventDefault; Stop], self)
    else rest
  else rest.

(** The shortcuts the widget handles itself. *)
Definition intercepted : list string :=
  ["ctrl+a"; "ctrl+c"; "ctrl+v"; "ctrl+z"; "ctrl+y"].

(** Effects that are calls into the application only. *)
Definition quiet (l : list Effect) : Prop :=
  Forall (fun e => match e with
                   | AppCall _ | SuppressAutocompleteOnNewline => True
                   | _ => False
                   end) l.


(** An application with every action, in insert or in another mode. *)
Definition full_app (mode : VimMode) : App :=
  {| vim_mode := Some mode; autocomplete_visible := true;
     has_attr := fun _ => true |}.

Definition edited : Widget := {| text := "select 1"; _last_text := "select" |}.

End TextArea.

(** ** Results table ([sqlit/shared/ui/widgets_tables.py]) *)

Module DataTable.
#[local] Open Scope Z_scope.

(** What [render_line] reads of the table. *)
Record SqlitDataTable := {
  width : Z;           (* [self.size], first component *)
  scroll_x : Z;        (* [self.scroll_offset] *)
  scroll_y : Z;
  fixed_rows : Z;
  show_header : bool;
  header_height : Z
}.

(** The call [self._render_line(y, x1, x2, self.rich_style)]; the style is
    handed on as it is. *)
Record RenderCall := {
  line : Z;
  x1 : Z;
  x2 : Z
}.

Definition render_line (self : SqlitDataTable) (y : Z) : RenderCall :=
  let fixed_rows_height := fixed_rows self in
  let fixed_rows_height :=
    if show_header self then fixed_rows_height + header_height self
    else fixed_rows_height in
  let y := if bool_decide (y >= fixed_rows_height) then y + scroll_y self else y in
  let y := if negb (show_header self) then y + 1 else y in
  {| line := y; x1 := scroll_x self; x2 := scroll_x self + width self |}.

Definition headless (scroll : Z) : SqlitDataTable :=
  {| width := 80; scroll_x := 0; scroll_y := scroll;
     fixed_rows := 0; show_header := false; header_height := 1 |}.

End DataTable.

(** ** Interface state machine ([sqlit/domains/shell/state/machine.py]) *)

Module StateMachine.

(** The states [UIStateMachine.__init__] builds, by class. *)
Inductive StateId :=
| RootState
| ModalActiveState
| QueryExecutingState
| MainScreenState
| LeaderPendingState
| TreeFocusedState
| TreeFilterActiveState
| TreeOnConnectionState
| TreeOnDatabaseState
| TreeOnTableState
| TreeOnFolderState
| TreeOnObjectState
| QueryFocusedState
| QueryNormalModeState
| QueryInsertModeState
| AutocompleteActiveState
| ResultsFocusedState
| ResultsFilterActiveState
| ValueViewActiveState.

#[global] Instance StateId_eq_dec : EqDecision StateId.
Proof. solve_decision. Defined.

(** [InputContext] and every state class but [MainScreenState] are not
    part of the sources: the context carries the two flags
    [MainScreenState.is_active] reads and, for the other classes, what
    their [is_active] answers on it. *)
Record InputContext := {
  modal_open : bool;
  query_executing : bool;
  active_elsewhere : StateId -> bool
}.

(** The [parent=] argument of each state. *)
Definition parent (s : StateId) : option StateId :=
  match s with
  | RootState => None
  | ModalActiveState | QueryExecutingState | MainScreenState => Some RootState
  | LeaderPendingState | TreeFocusedState | TreeFilterActiveState
  | QueryFocusedState | ResultsFocusedState | ResultsFilterActiveState
  | ValueViewActiveState => Some MainScreenState
  | TreeOnConnectionState | TreeOnDatabaseState | TreeOnTableState
  | TreeOnFolderState | TreeOnObjectState => Some TreeFocusedState
  | QueryNormalModeState | QueryInsertModeState
  | AutocompleteActiveState => Some QueryFocusedState
  end.

(** [self._states] *)
Definition _states : list StateId :=
  [ ModalActiveState;
    QueryExecutingState;
    LeaderPendingState;
    TreeFilterActiveState;
    TreeOnConnectionState;
    TreeOnDatabaseState;
    TreeOnTableState;
    TreeOnFolderState;
    TreeOnObjectState;
    TreeFocusedState;
    AutocompleteActiveState;
    QueryInsertModeState;
    QueryNormalModeState;
    QueryFocusedState;
    ResultsFilterActiveState;
    ValueViewActiveState;
    ResultsFocusedState;
    MainScreenState;
    RootState ].

(** [state.is_active(app)]; [MainScreenState.is_active] is the one in
    [main_screen.py]. *)
Definition is_active (s : StateId) (app : InputContext) : bool :=
  match s with
  | MainScreenState =>
      if modal_open app then false else negb (query_executing app)
  | _ => active_elsewhere app s
  end.

Fixpoint first_active (states : list StateId) (app : InputContext)
    : option StateId :=
  match states with
  | [] => None
  | state :: rest =>
      if is_active state app then Some state else first_active rest app
  end.

Definition get_active_state (app : InputContext) : StateId :=
  match first_active _states app with
  | Some state => state
  | None => RootState
  end.

(** The place of a state in [_states]. *)
Fixpoint index_of (s : StateId) (states : list StateId) : option nat :=
  match states with
  | [] => None
  | s' :: rest =>
      if decide (s' = s) then Some 0 else S <$> index_of s rest
  end.

(** A context with the results pane focused and nothing else going on. *)
Definition browsing_results : InputContext :=
  {| modal_open := false; query_executing := false;
     active_elsewhere := fun s => bool_decide (s = ResultsFocusedState) |}.

End StateMachine.

(** ** Mock adapter ([sqlit/mocks.py]) *)

Module Mocks.
Import Schema.
#[local] Open Scope list_scope.

(** A cell of a result row, and a row (a tuple). *)
Inductive Cell :=
| CInt (n : Z)
| CStr (s : string).

(** [x or default] for an optional list: none and the empty list both
    give the default. *)
Definition list_or {A} (x : option (list A)) (default : list A) : list A :=
  match x with
  | Some (a :: l) => a :: l
  | _ => default
  end.

(** [x or default] for an optional string. *)
Definition str_or (x : option string) (default : string) : string :=
  match x with
  | Some (String a s) => String a s
  | _ => default
  end.

(** *** [MockCursor] *)

Record MockCursor := {
  cursor_results : list (list Cell);
  cursor_columns : list string;
  description : list (list string)
}.

Definition MockCursor_init (results : option (list (list Cell)))
    (columns : option (list string)) : MockCursor :=
  let _results := list_or results [[CInt 1; CStr "Alice"]; [CInt 2; CStr "Bob"]] in
  let _columns := list_or columns ["id"; "name"] in
  {| cursor_results := _results;
     cursor_columns := _columns;
     description := map (fun c => [c]) _columns |}.

Definition fetchall (self : MockCursor) : list (list Cell) := cursor_results self.

Definition fetchone (self : MockCursor) : option (list Cell) :=
  match cursor_results self with
  | row :: _ => Some row
  | [] => None
  end.

(** *** [MockDatabaseAdapter]: queries and connecting *)

(** [(columns, rows)] *)
Definition QueryResult : Type := list string * list (list Cell).

(** The attributes [connect] reads off the configuration with
    [getattr(config, field, None)]: an attribute that is absent or none has
    no entry. *)
Definition MockConfig : Type := gmap string string.

(** The constructor arguments that queries and connecting depend on.
    [query_delay] only makes [execute_query] sleep and is left out. *)
Record AdapterArgs := {
  arg_query_results : option (list (string * QueryResult));
  arg_default_query_result : option QueryResult;
  arg_connect_result : option string;
  arg_connect_error : option string;
  arg_required_fields : option (list string);
  arg_allowed_connections : option (list (list (string * option string)));
  arg_auth_error : option string
}.

Record MockDatabaseAdapter := {
  _query_results : list (string * QueryResult);
  _default_query_result : QueryResult;
  _connect_result : string;
  _connect_error : string;
  _required_fields : list string;
  _allowed_connections : list (list (string * option string));
  _auth_error : string
}.

Record MockConnection := { closed : bool }.

(** [s in t] for strings. *)
Fixpoint is_substring (s t : string) : bool :=
  String.prefix s t ||
  match t with
  | EmptyString => false
  | String _ t' => is_substring s t'
  end.

(** [rows[:n]] *)
Definition slice_to {A} (rows : list A) (n : Z) : list A :=
  if bool_decide (0 <= n)%Z then take (Z.to_nat n) rows
  else take (Z.to_nat (Z.of_nat (length rows) + n)) rows.

(** The three lines that end both branches of [execute_query]. *)
Definition limited (result : QueryResult) (max_rows : option Z)
    : list string * list (list Cell) * bool :=
  let '(cols, rows) := result in
  match max_rows with
  | Some n =>
      if bool_decide (n <> 0%Z) && bool_decide (Z.of_nat (length rows) > n)%Z
      then (cols, slice_to rows n, true)
      else (cols, rows, false)
  | None => (cols, rows, false)
  end.

Section Runtime.
(** [str.lower] and [str.strip] of the Python runtime. *)
Context (lower strip : string -> string).

Definition MockDatabaseAdapter_init (args : AdapterArgs) : MockDatabaseAdapter :=
  {| _query_results := list_or (arg_query_results args) [];
     _default_query_result :=
       default (["id"; "name"],
                [[CInt 1; CStr "Sample Row 1"]; [CInt 2; CStr "Sample Row 2"]])
         (arg_default_query_result args);
     _connect_result := lower (strip (str_or (arg_connect_result args) "success"));
     _connect_error := str_or (arg_connect_error args) "Connection failed";
     _required_fields := list_or (arg_required_fields args) [];
     _allowed_connections := list_or (arg_allowed_connections args) [];
     _auth_error := str_or (arg_auth_error args) "Authentication failed" |}.

Fixpoint first_match (items : list (string * QueryResult)) (query_lower : string)
    : option QueryResult :=
  match items with
  | [] => None
  | (pattern, result) :: rest =>
      if is_substring (lower pattern) query_lower then Some result
      else first_match rest query_lower
  end.

Definition execute_query (self : MockDatabaseAdapter) (query : string)
    (max_rows : option Z) : list string * list (list Cell) * bool :=
  let query_lower := strip (lower query) in
  match first_match (_query_results self) query_lower with
  | Some result => limited result max_rows
  | None => limited (_default_query_result self) max_rows
  end.

(** The result a query picks, before the row limit. *)
Definition selected (self : MockDatabaseAdapter) (query : string) : QueryResult :=
  default (_default_query_result self)
    (first_match (_query_results self) (strip (lower query))).

End Runtime.

(** [not getattr(config, field, None)] *)
Definition attr_missing (config : MockConfig) (field : string) : bool :=
  match config !! field with
  | Some (String _ _) => false
  | _ => true
  end.

Definition _matches_connection_rule (config : MockConfig)
    (rule : list (string * option string)) : bool :=
  forallb (fun '(key, value) => bool_decide (config !! key = value)) rule.

(** [', '.join(missing)] *)
Fixpoint join_comma (l : list string) : string :=
  match l with
  | [] => ""
  | [x] => x
  | x :: rest => x ++ ", " ++ join_comma rest
  end%string.

Definition connect (self : MockDatabaseAdapter) (config : MockConfig)
    : Result MockConnection :=
  if negb (bool_decide (_connect_result self ∈ ["success"; "ok"; "pass"])) then
    Raise (_connect_error self)
  else
    let missing := List.filter (attr_missing config) (_required_fields self) in
    match _required_fields self, missing with
    | _ :: _, _ :: _ =>
        Raise (match _connect_error self with
               | String a e => String a e
               | EmptyString => ("Missing required fields: " ++ join_comma missing)%string
               end)
    | _, _ =>
        match _allowed_connections self with
        | _ :: _ =>
            if negb (existsb (_matches_connection_rule config) (_allowed_connections self))
            then Raise (_auth_error self)
            else Ok {| closed := false |}
        | [] => Ok {| closed := false |}
        end
    end.

(** Arguments left at their defaults but for the required fields. *)
Definition requiring (fields : list string) : AdapterArgs :=
  {| arg_query_results := None;
     arg_default_query_result := None;
     arg_connect_result := None;
     arg_connect_error := Some "";
     arg_required_fields := Some fields;
     arg_allowed_connections := None;
     arg_auth_error := None |}.

End Mocks.

Module FlowFacts.
Import Config Flow.

Lemma needs_ssh_with_tunnel c pw :
  needs_ssh_password c = true -> needs_ssh_password (with_tunnel c pw) = false.
Proof.
  unfold needs_ssh_password, with_tunnel.
  destruct (tunnel c) as [t|]; [|discriminate]. reflexivity.
Qed.

Lemma needs_db_with_endpoint c pw :
  needs_db_password c = true -> needs_db_password (with_endpoint c pw) = false.
Proof.
  unfold needs_db_password, with_endpoint.
  destruct (tcp_endpoint c) as [e|]; [|discriminate]. reflexivity.
Qed.

Lemma needs_ssh_with_endpoint c pw :
  needs_ssh_password (with_endpoint c pw) = needs_ssh_password c.
Proof.
  unfold needs_ssh_password, with_endpoint.
  destruct (tcp_endpoint c); reflexivity.
Qed.

Ltac flow_unfold :=
  cbv [trace run_flow start deliver populate_credentials_if_missing
       _with_db_password prompt_ssh_password prompt_db_password
       on_ssh_password on_db_password on_ready invoke run_pending
       take_deferred read_config write_config emit defer init_world
       mbind mret M_bind M_ret
       config_object events deferred app snd fst].

Ltac flow_case :=
  match goal with
  | H : ?b = _ |- context [if ?b then _ else _] => rewrite H
  | H : ?r = _ |- context [match ?r with NoReply => _ | _ => _ end] => rewrite H
  | H : ?o = _ |- context [match ?o with Some _ => _ | None => _ end] => rewrite H
  | |- context [if ?b then _ else _] => destruct b eqn:?
  | |- context [match ?r with NoReply => _ | _ => _ end] => destruct r as [|[?|]|[?|]] eqn:?
  | |- context [match prompter ?s with Some _ => _ | None => _ end] =>
      destruct (prompter s) eqn:?
  end.

Ltac flow_run := flow_unfold; repeat (flow_case; flow_unfold).

Ltac in_trace H :=
  repeat (apply elem_of_cons in H as [H|H]);
  try (apply elem_of_nil in H; contradiction);
  try discriminate H.

Lemma populated_config_present self config :
  both_passwords_present config = true ->
  (forall cm, connection_manager self = Some cm ->
     populate_credentials cm config = config) ->
  populated_config self config = config.
Proof.
  intros Hp Hcm. unfold populated_config.
  destruct (connection_manager self) as [cm|]; [by apply Hcm|].
  unfold both_passwords_present in Hp. by rewrite Hp.
Qed.

Lemma both_present_needs_nothing config :
  both_passwords_present config = true ->
  needs_ssh_password config = false /\ needs_db_password config = false.
Proof.
  unfold both_passwords_present, needs_ssh_password, needs_db_password.
  destruct (tcp_endpoint config) as [e|]; [|discriminate].
  destruct (password e); [|discriminate].
  destruct (tunnel config) as [t|]; [|done].
  by destruct (ssh_password t).
Qed.

(** After the two delivery rounds of [run_flow] no callback is left
    waiting. *)
Lemma run_flow_quiescent self config :
  deferred (snd (run_flow self (init_world config))) = [].
Proof.
  set (c0 := populated_config self config).
  assert (Hc0 : populated_config self config = c0) by reflexivity.
  flow_unfold. rewrite !Hc0. clearbody c0.
  flow_run; reflexivity.
Qed.

(** C1. When the endpoint password and, if a tunnel is configured, the
    tunnel password are present (and a connection manager, if one is set,
    leaves such a configuration as it is), [start] calls [on_ready] before
    it returns, exactly once, with the configuration it was given; the
    configuration object is unchanged, no prompt is requested and no
    callback is left pending, so nothing more happens later. *)
Theorem start_ready_when_passwords_present self config :
  both_passwords_present config = true ->
  (forall cm, connection_manager self = Some cm ->
     populate_credentials cm config = config) ->
  start self (init_world config)
    = (tt, {| config_object := config;
              events := [Ready config];
              deferred := [] |})
  /\ trace self config = [Ready config].
Proof.
  intros Hp Hcm.
  pose proof (populated_config_present self config Hp Hcm) as Hc.
  destruct (both_present_needs_nothing config Hp) as [Hs Hd].
  split; flow_unfold; rewrite !Hc, Hs, Hd; reflexivity.
Qed.

Lemma start_ready_when_passwords_present_witness :
  start Samples.flow_prompting (init_world Samples.cfg_full)
    = (tt, {| config_object := Samples.cfg_full;
              events := [Ready Samples.cfg_full];
              deferred := [] |})
  /\ trace Samples.flow_prompting Samples.cfg_full = [Ready Samples.cfg_full].
Proof.
  apply (start_ready_when_passwords_present
           Samples.flow_prompting Samples.cfg_full).
  - reflexivity.
  - intros cm H. discriminate H.
Defined.

(** C2. With a prompter registered and both the SSH and the DB password
    still missing after credential population, the first thing the flow
    does is request the SSH password; a DB prompt is only ever requested
    for a configuration derived from a supplied SSH password; and when the
    SSH callback is invoked with no value, the SSH request is the only
    event: no DB prompt and no [on_ready]. *)
Theorem ssh_prompt_before_db_prompt self p config :
  prompter self = Some p ->
  needs_ssh_password (populated_config self config) = true ->
  needs_db_password (populated_config self config) = true ->
  (exists rest,
     trace self config = PromptSsh (populated_config self config) :: rest /\
     forall e, e ∈ rest -> is_prompt_ssh e = false) /\
  (forall c, PromptDb c ∈ trace self config ->
     exists pw, supplied (ssh_reply p (populated_config self config)) pw /\
                c = with_tunnel (populated_config self config) pw) /\
  (cancelled (ssh_reply p (populated_config self config)) ->
     trace self config = [PromptSsh (populated_config self config)]).
Proof.
  intros Hp Hs Hd.
  set (c0 := populated_config self config) in *.
  assert (Hc0 : populated_config self config = c0) by reflexivity.
  clearbody c0. unfold supplied, cancelled.
  flow_unfold. rewrite !Hc0, Hs, Hp. flow_run.
  all: split; [eexists; split; [reflexivity|]; intros e He; in_trace He; by subst e|].
  all: split; [intros cd Hcd; in_trace Hcd; try (injection Hcd as ->); eauto|].
  all: intros [H|H]; try discriminate H; reflexivity.
Qed.

Lemma ssh_prompt_before_db_prompt_witness :
  trace Samples.flow_cancel_ssh Samples.cfg_none = [PromptSsh Samples.cfg_none].
Proof.
  apply (ssh_prompt_before_db_prompt
           Samples.flow_cancel_ssh Samples.prompter_cancel_ssh Samples.cfg_none).
  - reflexivity.
  - reflexivity.
  - reflexivity.
  - right. reflexivity.
Defined.

(** C3. Without a prompter, a configuration that still needs the SSH or
    the DB password after credential population makes [start] return
    normally with nothing done: [on_ready] is not called, during the call
    or later. *)
Theorem no_prompter_silent_abort self config :
  prompter self = None ->
  needs_ssh_password (populated_config self config) = true \/
  needs_db_password (populated_config self config) = true ->
  start self (init_world config)
    = (tt, {| config_object := populated_config self config;
              events := [];
              deferred := [] |})
  /\ trace self config = [].
Proof.
  intros Hp Hn.
  set (c0 := populated_config self config) in *.
  assert (Hc0 : populated_config self config = c0) by reflexivity.
  clearbody c0.
  split; flow_unfold; rewrite !Hc0, ?Hp;
    destruct (needs_ssh_password c0) eqn:Hs; try reflexivity;
    destruct Hn as [Hn|Hn]; try discriminate Hn; rewrite Hn; reflexivity.
Qed.

Lemma no_prompter_silent_abort_witness :
  start Samples.flow_no_prompter (init_world Samples.cfg_none)
    = (tt, {| config_object := Samples.cfg_none; events := []; deferred := [] |})
  /\ trace Samples.flow_no_prompter Samples.cfg_none = [].
Proof.
  apply (no_prompter_silent_abort Samples.flow_no_prompter Samples.cfg_none).
  - reflexivity.
  - left. reflexivity.
Defined.

(** The SSH password is resolved before the DB password is requested:
    whatever the collaborators do, a configuration the DB prompt is
    requested for does not need the SSH password. *)
Lemma ssh_resolved_before_db_prompt self config c :
  PromptDb c ∈ trace self config -> needs_ssh_password c = false.
Proof.
  set (c0 := populated_config self config).
  assert (Hc0 : populated_config self config = c0) by reflexivity.
  flow_unfold. rewrite !Hc0. clearbody c0.
  flow_run.
  all: intros Hc; in_trace Hc; injection Hc as ->.
  all: auto using needs_ssh_with_tunnel.
Qed.

(** C4. Whatever the credential store, the connection manager and the
    prompter do, one flow calls [on_ready] at most once, and every
    configuration [on_ready] receives needs neither the SSH nor the DB
    password. *)
Theorem on_ready_at_most_once self config :
  ready_count (trace self config) <= 1 /\
  forall c, Ready c ∈ trace self config ->
    needs_ssh_password c = false /\ needs_db_password c = false.
Proof.
  set (c0 := populated_config self config).
  assert (Hc0 : populated_config self config = c0) by reflexivity.
  flow_unfold. rewrite !Hc0. clearbody c0.
  flow_run.
  all: split; [cbv; lia|].
  all: intros cr Hcr; in_trace Hcr; injection Hcr as ->.
  all: rewrite ?needs_ssh_with_endpoint;
       auto using needs_ssh_with_tunnel, needs_db_with_endpoint.
Qed.

Lemma populated_config_db_only self config :
  connection_manager self = None ->
  needs_ssh_password config = false ->
  needs_db_password (populated_config self config) = true ->
  populated_config self config = config.
Proof.
  unfold populated_config, needs_ssh_password, needs_db_password.
  intros -> Hs.
  destruct config as [n ty [[h po u [pw|]]|] [[sh sp su [spw|]]|]];
    simpl in *; try discriminate Hs; try reflexivity.
  all: destruct (get_password _ n); simpl; [discriminate | reflexivity].
Qed.

(** C5. With a prompter registered and, after credential population, only
    the DB password missing, the flow requests the DB password and nothing
    else; when the prompt supplies [pw], [on_ready] is called exactly once,
    with a configuration whose endpoint password is [pw] and whose name,
    engine type, tunnel and remaining endpoint fields are those of the
    configuration object passed in.  That object holds what credential
    population left in it, which is the caller's original configuration
    when no connection manager is set and the original did not lack the SSH
    password. *)
Theorem db_prompt_only_changes_endpoint_password self p config pw :
  prompter self = Some p ->
  needs_ssh_password (populated_config self config) = false ->
  needs_db_password (populated_config self config) = true ->
  supplied (db_reply p (populated_config self config)) pw ->
  exists ready e e',
    trace self config = [PromptDb (populated_config self config); Ready ready] /\
    config_object (snd (run_flow self (init_world config)))
      = populated_config self config /\
    tcp_endpoint (populated_config self config) = Some e /\
    tcp_endpoint ready = Some e' /\
    password e' = Some pw /\
    host e' = host e /\ port e' = port e /\ username e' = username e /\
    name ready = name (populated_config self config) /\
    db_type ready = db_type (populated_config self config) /\
    tunnel ready = tunnel (populated_config self config) /\
    (connection_manager self = None ->
     needs_ssh_password config = false ->
     populated_config self config = config).
Proof.
  intros Hp Hs Hd Hr.
  pose proof (fun Hm Hn => populated_config_db_only self config Hm Hn Hd) as Hin.
  set (c0 := populated_config self config) in *.
  assert (Hc0 : populated_config self config = c0) by reflexivity.
  clearbody c0.
  assert (He : exists e, tcp_endpoint c0 = Some e).
  { unfold needs_db_password in Hd.
    destruct (tcp_endpoint c0) as [e|]; [eauto | discriminate]. }
  destruct He as [e He].
  exists (with_endpoint c0 pw), e, (set_endpoint_password e (Some pw)).
  assert (Hw : with_endpoint c0 pw
               = set_tcp_endpoint c0 (Some (set_endpoint_password e (Some pw)))).
  { unfold with_endpoint. by rewrite He. }
  split; [|split].
  - flow_unfold. rewrite !Hc0, Hs, Hd, Hp.
    destruct Hr as [Hr|Hr]; rewrite Hr; reflexivity.
  - flow_unfold. rewrite !Hc0, Hs, Hd, Hp.
    destruct Hr as [Hr|Hr]; rewrite Hr; reflexivity.
  - rewrite Hw. repeat split; auto.
Qed.

Lemma db_prompt_only_changes_endpoint_password_witness :
  exists ready e e',
    trace Samples.flow_prompting Samples.cfg_no_db
      = [PromptDb (populated_config Samples.flow_prompting Samples.cfg_no_db);
         Ready ready] /\
    config_object (snd (run_flow Samples.flow_prompting (init_world Samples.cfg_no_db)))
      = populated_config Samples.flow_prompting Samples.cfg_no_db /\
    tcp_endpoint (populated_config Samples.flow_prompting Samples.cfg_no_db) = Some e /\
    tcp_endpoint ready = Some e' /\
    password e' = Some "secret1" /\
    host e' = host e /\ port e' = port e /\ username e' = username e /\
    name ready = name (populated_config Samples.flow_prompting Samples.cfg_no_db) /\
    db_type ready = db_type (populated_config Samples.flow_prompting Samples.cfg_no_db) /\
    tunnel ready = tunnel (populated_config Samples.flow_prompting Samples.cfg_no_db) /\
    (connection_manager Samples.flow_prompting = None ->
     needs_ssh_password Samples.cfg_no_db = false ->
     populated_config Samples.flow_prompting Samples.cfg_no_db = Samples.cfg_no_db).
Proof.
  apply (db_prompt_only_changes_endpoint_password
           Samples.flow_prompting Samples.prompter_supplying
           Samples.cfg_no_db "secret1").
  - reflexivity.
  - reflexivity.
  - reflexivity.
  - right. reflexivity.
Defined.

End FlowFacts.

Module SchemaFacts.
Import Schema.

Ltac kind_cases :=
  repeat (case_decide; subst; try discriminate; try congruence).

(** C10. For a folder kind outside the six the service knows, the call
    returns the empty list and leaves the world as it was: nothing is
    submitted to the worker, the adapter receives no call, the cache is not
    written, and nothing is raised. *)
Theorem unknown_kind_returns_empty self folder_type database w :
  folder_type ∉ folder_kinds ->
  list_folder_items self folder_type database w = (Ok [], w).
Proof.
  intros Hk. unfold folder_kinds in Hk.
  repeat (apply not_elem_of_cons in Hk as [? Hk]).
  unfold list_folder_items. kind_cases. reflexivity.
Qed.

Lemma unknown_kind_returns_empty_witness :
  list_folder_items SchemaSamples.mock_service "functions" (Some "db1")
    SchemaSamples.fresh_world
  = (Ok [], SchemaSamples.fresh_world).
Proof.
  apply (unknown_kind_returns_empty SchemaSamples.mock_service "functions").
  compute_done.
Defined.

(** C6. For a capability-gated kind (indexes, triggers, sequences,
    procedures), when the session's capability flag for the kind is false
    or the inspector does not implement the kind's extension interface, the
    call returns the empty list and leaves the world as it was: nothing is
    submitted to the worker and the adapter receives no call. *)
Theorem gated_kind_unsupported_returns_empty self folder_type database w :
  folder_type ∈ gated_kinds ->
  capability_flag (capabilities (provider (session self))) folder_type = false \/
  implements_extension (schema_inspector (provider (session self))) folder_type = false ->
  list_folder_items self folder_type database w = (Ok [], w).
Proof.
  intros Hk Hu. unfold gated_kinds in Hk.
  repeat (apply elem_of_cons in Hk as [->|Hk]);
    try (apply elem_of_nil in Hk; contradiction).
  all: unfold capability_flag, implements_extension in Hu.
  all: unfold list_folder_items; kind_cases.
  all: destruct Hu as [Hu|Hu]; try rewrite Hu; try reflexivity.
  all: apply bool_decide_eq_false in Hu.
  all: match goal with
       | |- context [match ?b with true => _ | false => _ end] => destruct b
       end; try reflexivity.
  all: match goal with
       | |- context [match ?o with Some _ => _ | None => _ end] =>
           destruct o eqn:?
       end; try reflexivity.
  all: exfalso; apply Hu; eauto.
Qed.

Lemma gated_kind_unsupported_returns_empty_witness :
  list_folder_items SchemaSamples.mock_service "indexes" (Some "db1")
    SchemaSamples.fresh_world
  = (Ok [], SchemaSamples.fresh_world).
Proof.
  apply (gated_kind_unsupported_returns_empty SchemaSamples.mock_service "indexes").
  - compute_done.
  - left. reflexivity.
Defined.

(** *** The [cached] helper *)

Lemma cached_hit key kind loader w data :
  entry w key kind = Some data ->
  cached key kind loader w = (Ok data, w).
Proof.
  unfold entry, cached. intros H.
  cbv [mbind M_bind read_cache] in H |- *. rewrite H. reflexivity.
Qed.

Lemma cached_miss key kind call fn w :
  entry w key kind = None ->
  cached key kind (_run call fn) w =
    match fn (adapter_calls w) with
    | Ok data => (Ok data, stored key kind data (ran call w))
    | Raise e => (Raise e, ran call w)
    end.
Proof.
  unfold entry, cached. intros H.
  cbv [mbind M_bind read_cache] in H |- *. rewrite H.
  unfold _run. destruct (fn (adapter_calls w)) as [data|e]; [|reflexivity].
  cbn. unfold stored, ran. cbn.
  destruct (object_cache w !! key) as [part|] eqn:Hp; cbn; do 2 f_equal.
  - apply map_eq. intros k. rewrite lookup_alter, lookup_insert.
    case_decide; subst; [by rewrite Hp | reflexivity].
  - by rewrite alter_insert_eq.
Qed.

Lemma entry_stored key kind data w :
  entry (stored key kind data w) key kind = Some data.
Proof.
  unfold entry, stored. cbn.
  rewrite lookup_insert_eq. cbn. by rewrite lookup_insert_eq.
Qed.

Lemma partition_stored_ne key key' kind data w :
  key' <> key ->
  object_cache (stored key kind data w) !! key' = object_cache w !! key'.
Proof. intros H. unfold stored. cbn. by rewrite lookup_insert_ne. Qed.

(** *** Listing a memoized kind *)

Lemma list_memoized self kind d w :
  memoized self kind ->
  list_folder_items self kind d w =
    match entry w (cache_key d) kind with
    | Some data => (rows_of kind data, w)
    | None =>
        match loader_answer self kind (adapter_calls w) (_resolve_db_arg self d) with
        | Ok data =>
            (rows_of kind data,
             stored (cache_key d) kind data
               (ran (loader_call kind (_resolve_db_arg self d)) w))
        | Raise e => (Raise e, ran (loader_call kind (_resolve_db_arg self d)) w)
        end
    end.
Proof.
  intros [->|[->|(-> & Hcap & [gp Hgp])]];
    unfold list_folder_items, rows_of, loader_call, loader_answer;
    kind_cases; rewrite ?Hcap, ?Hgp.
  all: cbv [mbind M_bind lift mret M_ret].
  all: destruct (entry w (cache_key d) _) as [data|] eqn:He.
  all: try (rewrite (cached_hit _ _ _ _ _ He); reflexivity).
  all: rewrite (cached_miss _ _ _ _ _ He).
  all: match goal with
       | |- context [match ?r with Ok _ => _ | Raise _ => _ end] => destruct r
       end; reflexivity.
Qed.

Lemma entry_stored_ne key key' kind data w :
  key' <> key ->
  entry (stored key kind data w) key' kind = entry w key' kind.
Proof. intros H. unfold entry. by rewrite partition_stored_ne. Qed.

(** What one call can do to the world: nothing, one unit of work, or one
    unit of work whose data is stored in the partition of the selector as
    given.  The unit of work carries the resolved argument. *)
Lemma after_shape self folder_type database w :
  exists c,
    call_db_arg c = _resolve_db_arg self database /\
    (after self folder_type database w = w \/
     after self folder_type database w = ran c w \/
     exists data,
       after self folder_type database w
         = stored (cache_key database) folder_type data (ran c w)).
Proof.
  assert (Hm : memoized self folder_type ->
    exists c, call_db_arg c = _resolve_db_arg self database /\
      (after self folder_type database w = w \/
       after self folder_type database w = ran c w \/
       exists data, after self folder_type database w
         = stored (cache_key database) folder_type data (ran c w))).
  { intros Hm.
    exists (loader_call folder_type (_resolve_db_arg self database)).
    split; [unfold loader_call; kind_cases; reflexivity|].
    unfold after. rewrite (list_memoized _ _ _ _ Hm).
    destruct (entry w _ _); [by left|].
    destruct (loader_answer _ _ _ _); cbn; eauto. }
  destruct (decide (folder_type = "tables")) as [->|?]; [apply Hm; by left|].
  destruct (decide (folder_type = "views")) as [->|?]; [apply Hm; right; by left|].
  destruct (decide (folder_type = "procedures")) as [->|?].
  { destruct (supports_stored_procedures
                (capabilities (provider (session self)))) eqn:Hcap;
    destruct (procedure_inspector
                (schema_inspector (provider (session self)))) as [gp|] eqn:Hgp.
    1: apply Hm; right; right; eauto.
    all: exists (GetProcedures (_resolve_db_arg self database)).
    all: split; [reflexivity | left].
    all: unfold after, list_folder_items; kind_cases.
    all: by rewrite Hcap, ?Hgp. }
  clear Hm. unfold after, list_folder_items. kind_cases.
  all: repeat match goal with
       | |- context [match ?b with true => _ | false => _ end] => destruct b
       | |- context [match ?o with Some _ => _ | None => _ end] =>
           destruct o eqn:?
       end.
  all: try (exists (GetTables (_resolve_db_arg self database));
            split; [reflexivity | by left]).
  all: cbv [mbind M_bind mret M_ret _run snd].
  - exists (GetIndexes (_resolve_db_arg self database)).
    split; [reflexivity|]. right; left.
    by destruct (_ (adapter_calls w) _).
  - exists (GetTriggers (_resolve_db_arg self database)).
    split; [reflexivity|]. right; left.
    by destruct (_ (adapter_calls w) _).
  - exists (GetSequences (_resolve_db_arg self database)).
    split; [reflexivity|]. right; left.
    by destruct (_ (adapter_calls w) _).
Qed.

(** *** Memoization *)

(** C7, as the code has it.  For a memoized kind (tables, views, and
    procedures when the engine declares stored procedures and the inspector
    implements the extension), a selector [d] whose partition holds no
    entry for the kind, and an adapter call that succeeds: the first of two
    consecutive calls hands the adapter one unit of work, carrying the
    resolved argument, and stores its data; the second changes nothing and
    returns what the first returned.  A later call for a selector [d']
    whose cache key differs from that of [d], and whose partition holds no
    entry either, reaches the adapter again, leaves the partition of [d]
    as it is and stores its own data in the partition of [d']. *)
Theorem memoized_per_cache_key self kind d d' w data :
  memoized self kind ->
  entry w (cache_key d) kind = None ->
  loader_answer self kind (adapter_calls w) (_resolve_db_arg self d) = Ok data ->
  let w1 := after self kind d w in
  let w2 := after self kind d w1 in
  adapter_calls w1
    = (adapter_calls w ++ [loader_call kind (_resolve_db_arg self d)])%list /\
  entry w1 (cache_key d) kind = Some data /\
  w2 = w1 /\
  fst (list_folder_items self kind d w1) = fst (list_folder_items self kind d w) /\
  (cache_key d' <> cache_key d ->
   entry w (cache_key d') kind = None ->
   let w3 := after self kind d' w2 in
   adapter_calls w3
     = (adapter_calls w2 ++ [loader_call kind (_resolve_db_arg self d')])%list /\
   object_cache w3 !! cache_key d = object_cache w2 !! cache_key d /\
   entry w3 (cache_key d) kind = Some data /\
   forall data',
     loader_answer self kind (adapter_calls w2) (_resolve_db_arg self d')
       = Ok data' ->
     entry w3 (cache_key d') kind = Some data').
Proof.
  intros Hm He Ha. cbv zeta.
  assert (H1 : list_folder_items self kind d w
               = (rows_of kind data,
                  stored (cache_key d) kind data
                    (ran (loader_call kind (_resolve_db_arg self d)) w))).
  { by rewrite (list_memoized _ _ _ _ Hm), He, Ha. }
  set (w1 := stored (cache_key d) kind data
               (ran (loader_call kind (_resolve_db_arg self d)) w)) in *.
  assert (Hw1 : after self kind d w = w1) by (unfold after; by rewrite H1).
  assert (He1 : entry w1 (cache_key d) kind = Some data)
    by apply entry_stored.
  assert (H2 : list_folder_items self kind d w1 = (rows_of kind data, w1)).
  { by rewrite (list_memoized _ _ _ _ Hm), He1. }
  assert (Hw2 : after self kind d w1 = w1) by (unfold after; by rewrite H2).
  rewrite !Hw1, !Hw2, H1, H2.
  do 4 (split; [done|]).
  intros Hk He'.
  assert (He1' : entry w1 (cache_key d') kind = None)
    by (unfold w1; by rewrite entry_stored_ne).
  unfold after. rewrite (list_memoized _ _ _ _ Hm), He1'.
  destruct (loader_answer self kind (adapter_calls w1) _) as [data'|e];
    cbn [snd].
  - rewrite partition_stored_ne, entry_stored_ne by done.
    repeat split; try done.
    intros ? [= <-]. apply entry_stored.
  - repeat split; done.
Qed.

Lemma memoized_per_cache_key_witness :
  let w1 := after SchemaSamples.mock_service "tables" (Some "db1")
              SchemaSamples.fresh_world in
  adapter_calls w1 = [GetTables (Some "db1")] /\
  after SchemaSamples.mock_service "tables" (Some "db1") w1 = w1 /\
  adapter_calls (after SchemaSamples.mock_service "tables" (Some "db2") w1)
    = [GetTables (Some "db1"); GetTables (Some "db2")].
Proof.
  destruct (memoized_per_cache_key SchemaSamples.mock_service "tables"
              (Some "db1") (Some "db2") SchemaSamples.fresh_world
              SchemaSamples.postgres_tables)
    as (H1 & _ & H2 & _ & H3).
  - left. reflexivity.
  - reflexivity.
  - reflexivity.
  - cbv zeta. split; [exact H1|]. split; [exact H2|].
    destruct H3 as (H3 & _).
    + compute_done.
    + reflexivity.
    + rewrite H2 in H3. rewrite H3, H1. reflexivity.
Defined.

(** The spec's wording of C7 fails: the selectors [None] and [Some ""] are
    different, share the sentinel key, and so the third call is served from
    the cache. *)
Lemma other_selector_served_from_cache :
  ~ other_selector_reaches_adapter SchemaSamples.mock_service "tables"
      None (Some "") SchemaSamples.fresh_world.
Proof.
  intros H. specialize (H ltac:(discriminate)).
  vm_compute in H. discriminate H.
Qed.

(** *** Cache key and forwarded argument *)

Lemma memoized_ok_has_entry self kind d w rows :
  memoized self kind ->
  fst (list_folder_items self kind d w) = Ok rows ->
  is_Some (entry (after self kind d w) (cache_key d) kind).
Proof.
  intros Hm. unfold after. rewrite (list_memoized _ _ _ _ Hm).
  destruct (entry w _ _) eqn:He; cbn [fst snd].
  - intros _. rewrite He. eauto.
  - destruct (loader_answer _ _ _ _); cbn [fst snd]; [|discriminate].
    intros _. rewrite entry_stored. eauto.
Qed.

(** C8, as the code has it.  The partition a call can write is the one
    keyed by the database selector as given, before resolution: the
    sentinel ["__default__"] for no selector or the empty string, the
    selector itself otherwise.  Every other partition is left as it is, and
    a memoized listing that returns has its entry in that partition.  What
    the call hands to the worker and the adapter carries the resolved
    argument, which is the selector itself when no resolver is set. *)
Theorem partition_key_from_selector self folder_type database w :
  (forall k, k <> cache_key database ->
     object_cache (after self folder_type database w) !! k
       = object_cache w !! k) /\
  (exists new,
     adapter_calls (after self folder_type database w)
       = (adapter_calls w ++ new)%list /\
     submitted (after self folder_type database w)
       = (submitted w ++ new)%list /\
     forall c, c ∈ new -> call_db_arg c = _resolve_db_arg self database) /\
  (memoized self folder_type ->
   (exists rows, fst (list_folder_items self folder_type database w) = Ok rows) ->
   is_Some (entry (after self folder_type database w)
              (cache_key database) folder_type)) /\
  (db_arg_resolver self = None -> _resolve_db_arg self database = database) /\
  (forall f, db_arg_resolver self = Some f ->
     _resolve_db_arg self database = f database) /\
  (database = None \/ database = Some "" -> cache_key database = "__default__") /\
  (forall d, database = Some d -> d <> "" -> cache_key database = d).
Proof.
  destruct (after_shape self folder_type database w)
    as (c & Hc & [Hw|[Hw|[data Hw]]]).
  all: split; [intros k Hk; rewrite Hw; try done;
               by rewrite partition_stored_ne|].
  all: split; [|split; [|split; [|split; [|split]]]].
  all: try (unfold _resolve_db_arg; by intros ->).
  all: try (unfold _resolve_db_arg; by intros f ->).
  all: try (by intros [->| ->]).
  all: try (intros d -> Hd; unfold cache_key; by case_decide).
  - exists []. rewrite Hw, !app_nil_r. repeat split.
    intros c' Hc'. by apply elem_of_nil in Hc'.
  - intros Hm [rows Hr]. by apply (memoized_ok_has_entry _ _ _ _ rows).
  - exists [c]. rewrite Hw. repeat split.
    intros c' Hc'. apply list_elem_of_singleton in Hc'. by subst.
  - intros Hm [rows Hr]. by apply (memoized_ok_has_entry _ _ _ _ rows).
  - exists [c]. rewrite Hw. repeat split.
    intros c' Hc'. apply list_elem_of_singleton in Hc'. by subst.
  - intros Hm [rows Hr]. by apply (memoized_ok_has_entry _ _ _ _ rows).
Qed.

(** The spec's wording of C8 fails: with a resolver that maps every
    selector to none, a listing for ["db1"] writes the partition ["db1"],
    not the sentinel partition of the resolved argument. *)
Lemma partition_not_from_resolved :
  ~ partition_from_resolved SchemaSamples.implicit_db_service "tables"
      (Some "db1") SchemaSamples.fresh_world.
Proof.
  intros H. specialize (H "db1" ltac:(vm_compute; discriminate)).
  vm_compute in H. discriminate H.
Qed.

End SchemaFacts.

(** ** More about the schema listing *)

Module SchemaMoreFacts.
Import Schema SchemaFacts.

Lemma entry_ran c w key kind : entry (ran c w) key kind = entry w key kind.
Proof. reflexivity. Qed.

Lemma entry_stored_other key key' kind kind' data w :
  (key', kind') <> (key, kind) ->
  entry (stored key kind data w) key' kind' = entry w key' kind'.
Proof.
  intros Hne. unfold entry, stored. cbn.
  destruct (decide (key' = key)) as [->|Hk].
  - rewrite lookup_insert_eq. cbn.
    rewrite lookup_insert_ne by congruence.
    by destruct (object_cache w !! key).
  - by rewrite lookup_insert_ne.
Qed.

(** One call leaves the world as it is, or hands one unit of work to the
    worker, or does that and stores the data where no entry was. *)
Lemma after_cases self folder_type database w :
  exists c,
    call_db_arg c = _resolve_db_arg self database /\
    (after self folder_type database w = w \/
     after self folder_type database w = ran c w \/
     (entry w (cache_key database) folder_type = None /\
      exists data,
        after self folder_type database w
          = stored (cache_key database) folder_type data (ran c w))).
Proof.
  assert (Hm : memoized self folder_type ->
    exists c, call_db_arg c = _resolve_db_arg self database /\
      (after self folder_type database w = w \/
       after self folder_type database w = ran c w \/
       (entry w (cache_key database) folder_type = None /\
        exists data, after self folder_type database w
          = stored (cache_key database) folder_type data (ran c w)))).
  { intros Hm.
    exists (loader_call folder_type (_resolve_db_arg self database)).
    split; [unfold loader_call; kind_cases; reflexivity|].
    unfold after. rewrite (list_memoized _ _ _ _ Hm).
    destruct (entry w _ _) eqn:He; [by left|].
    destruct (loader_answer _ _ _ _); cbn; eauto 6. }
  destruct (decide (folder_type = "tables")) as [->|?]; [apply Hm; by left|].
  destruct (decide (folder_type = "views")) as [->|?]; [apply Hm; right; by left|].
  destruct (decide (folder_type = "procedures")) as [->|?].
  { destruct (supports_stored_procedures
                (capabilities (provider (session self)))) eqn:Hcap;
    destruct (procedure_inspector
                (schema_inspector (provider (session self)))) as [gp|] eqn:Hgp.
    1: apply Hm; right; right; eauto.
    all: exists (GetProcedures (_resolve_db_arg self database)).
    all: split; [reflexivity | left].
    all: unfold after, list_folder_items; kind_cases.
    all: by rewrite Hcap, ?Hgp. }
  clear Hm. unfold after, list_folder_items. kind_cases.
  all: repeat match goal with
       | |- context [match ?b with true => _ | false => _ end] => destruct b
       | |- context [match ?o with Some _ => _ | None => _ end] =>
           destruct o eqn:?
       end.
  all: try (exists (GetTables (_resolve_db_arg self database));
            split; [reflexivity | by left]).
  all: cbv [mbind M_bind mret M_ret _run snd].
  - exists (GetIndexes (_resolve_db_arg self database)).
    split; [reflexivity|]. right; left.
    by destruct (_ (adapter_calls w) _).
  - exists (GetTriggers (_resolve_db_arg self database)).
    split; [reflexivity|]. right; left.
    by destruct (_ (adapter_calls w) _).
  - exists (GetSequences (_resolve_db_arg self database)).
    split; [reflexivity|]. right; left.
    by destruct (_ (adapter_calls w) _).
Qed.

(** X1. The cache only grows: an entry that is in the cache before a call
    of [list_folder_items], for any kind and any selector, is there unchanged
    after it. *)
Theorem cache_entries_kept self folder_type database w key kind data :
  entry w key kind = Some data ->
  entry (after self folder_type database w) key kind = Some data.
Proof.
  intros He.
  destruct (after_cases self folder_type database w)
    as (c & _ & [Hw|[Hw|(Hn & data' & Hw)]]); rewrite Hw; try done.
  rewrite entry_stored_other; [done|].
  intros [= -> ->]. congruence.
Qed.

Lemma cache_entries_kept_witness :
  entry (after SchemaSamples.mock_service "views" (Some "db1")
           (after SchemaSamples.mock_service "tables" (Some "db1")
              SchemaSamples.fresh_world))
    "db1" "tables" = Some SchemaSamples.postgres_tables.
Proof.
  apply (cache_entries_kept SchemaSamples.mock_service "views" (Some "db1")).
  reflexivity.
Defined.

(** X2. When the adapter call behind a memoized listing raises, the
    exception reaches the caller, the cache is left as it was, and the next
    call for the same selector goes to the adapter again. *)
Theorem adapter_failure_not_cached self kind d w e :
  memoized self kind ->
  entry w (cache_key d) kind = None ->
  loader_answer self kind (adapter_calls w) (_resolve_db_arg self d) = Raise e ->
  fst (list_folder_items self kind d w) = Raise e /\
  object_cache (after self kind d w) = object_cache w /\
  adapter_calls (after self kind d (after self kind d w))
    = (adapter_calls w ++ [loader_call kind (_resolve_db_arg self d);
                           loader_call kind (_resolve_db_arg self d)])%list.
Proof.
  intros Hm He Ha.
  assert (H1 : list_folder_items self kind d w
               = (Raise e, ran (loader_call kind (_resolve_db_arg self d)) w)).
  { by rewrite (list_memoized _ _ _ _ Hm), He, Ha. }
  unfold after. rewrite H1. cbn [fst snd].
  repeat split.
  rewrite (list_memoized _ _ _ _ Hm), entry_ran, He.
  destruct (loader_answer self kind (adapter_calls (ran _ w)) _);
    cbn; by rewrite <- app_assoc.
Qed.

Lemma adapter_failure_not_cached_witness :
  fst (list_folder_items SchemaMoreSamples.failing_service "tables" None
         SchemaSamples.fresh_world) = Raise "OperationalError" /\
  object_cache (after SchemaMoreSamples.failing_service "tables" None
                  SchemaSamples.fresh_world) = ∅ /\
  adapter_calls (after SchemaMoreSamples.failing_service "tables" None
                   (after SchemaMoreSamples.failing_service "tables" None
                      SchemaSamples.fresh_world))
    = [GetTables None; GetTables None].
Proof.
  apply (adapter_failure_not_cached SchemaMoreSamples.failing_service
           "tables" None SchemaSamples.fresh_world "OperationalError").
  - left. reflexivity.
  - reflexivity.
  - reflexivity.
Defined.

(** X3. The raw data is stored before the rows are built from it.  When
    the adapter hands back a row that does not unpack into two items, the
    listing raises, the data is cached all the same, and every later call
    for that selector raises again from the cache without reaching the
    adapter. *)
Theorem malformed_rows_cached self kind d w data e :
  memoized self kind ->
  entry w (cache_key d) kind = None ->
  loader_answer self kind (adapter_calls w) (_resolve_db_arg self d) = Ok data ->
  rows_of kind data = Raise e ->
  fst (list_folder_items self kind d w) = Raise e /\
  entry (after self kind d w) (cache_key d) kind = Some data /\
  list_folder_items self kind d (after self kind d w)
    = (Raise e, after self kind d w).
Proof.
  intros Hm He Ha Hr.
  assert (H1 : list_folder_items self kind d w
               = (Raise e,
                  stored (cache_key d) kind data
                    (ran (loader_call kind (_resolve_db_arg self d)) w))).
  { by rewrite (list_memoized _ _ _ _ Hm), He, Ha, Hr. }
  unfold after. rewrite H1. cbn [fst snd].
  split; [done|]. split; [apply entry_stored|].
  by rewrite (list_memoized _ _ _ _ Hm), entry_stored, Hr.
Qed.

Lemma malformed_rows_cached_witness :
  fst (list_folder_items SchemaMoreSamples.malformed_service "tables" None
         SchemaSamples.fresh_world) = Raise "ValueError" /\
  entry (after SchemaMoreSamples.malformed_service "tables" None
           SchemaSamples.fresh_world) "__default__" "tables"
    = Some [VTuple [VStr "public"; VStr "users"; VStr "extra"]] /\
  list_folder_items SchemaMoreSamples.malformed_service "tables" None
    (after SchemaMoreSamples.malformed_service "tables" None
       SchemaSamples.fresh_world)
    = (Raise "ValueError",
       after SchemaMoreSamples.malformed_service "tables" None
         SchemaSamples.fresh_world).
Proof.
  apply (malformed_rows_cached SchemaMoreSamples.malformed_service "tables"
           None SchemaSamples.fresh_world).
  - left. reflexivity.
  - reflexivity.
  - reflexivity.
  - reflexivity.
Defined.

(** X4. Indexes, triggers and sequences are never cached: when the kind is
    supported, every call hands one unit of work with the resolved argument
    to the worker and leaves the cache as it is, whether the adapter
    returns or raises; two calls in a row reach the adapter twice. *)
Theorem gated_listing_never_cached self folder_type database w :
  folder_type ∈ ["indexes"; "triggers"; "sequences"] ->
  capability_flag (capabilities (provider (session self))) folder_type = true ->
  implements_extension (schema_inspector (provider (session self))) folder_type
    = true ->
  exists c,
    call_db_arg c = _resolve_db_arg self database /\
    after self folder_type database w = ran c w /\
    after self folder_type database (after self folder_type database w)
      = ran c (ran c w).
Proof.
  intros Hk Hcap Himp.
  repeat (apply elem_of_cons in Hk as [->|Hk]);
    try (apply elem_of_nil in Hk; contradiction).
  all: unfold capability_flag, implements_extension in Hcap, Himp.
  all: revert Hcap Himp; kind_cases; intros Hcap Himp.
  all: apply bool_decide_eq_true in Himp; destruct Himp as [g Hg].
  1: exists (GetIndexes (_resolve_db_arg self database)).
  2: exists (GetTriggers (_resolve_db_arg self database)).
  3: exists (GetSequences (_resolve_db_arg self database)).
  all: split; [reflexivity|].
  all: unfold after, list_folder_items; kind_cases; rewrite Hcap, Hg.
  all: cbv [mbind M_bind mret M_ret _run snd ran
            adapter_calls submitted object_cache].
  all: repeat match goal with
       | |- context [match ?r with Ok _ => _ | Raise _ => _ end] => destruct r
       end; split; reflexivity.
Qed.

Lemma gated_listing_never_cached_witness :
  exists c,
    call_db_arg c = _resolve_db_arg SchemaMoreSamples.malformed_service (Some "db1") /\
    after SchemaMoreSamples.malformed_service "indexes" (Some "db1")
      SchemaSamples.fresh_world = ran c SchemaSamples.fresh_world /\
    after SchemaMoreSamples.malformed_service "indexes" (Some "db1")
      (after SchemaMoreSamples.malformed_service "indexes" (Some "db1")
         SchemaSamples.fresh_world)
      = ran c (ran c SchemaSamples.fresh_world).
Proof.
  apply (gated_listing_never_cached SchemaMoreSamples.malformed_service
           "indexes" (Some "db1") SchemaSamples.fresh_world).
  - compute_done.
  - reflexivity.
  - reflexivity.
Defined.

Lemma unpack_rows_pairs tag (pairs : list (Val * Val)) :
  unpack_rows tag (map SchemaMoreSamples.pair_row pairs)
    = Ok (map (fun p => (tag, p.1, p.2)) pairs).
Proof.
  induction pairs as [|[a b] pairs IH]; [reflexivity|].
  cbn. cbn in IH. by rewrite IH.
Qed.

Lemma rows_from_entry self kind d w data :
  memoized self kind ->
  entry (after self kind d w) (cache_key d) kind = Some data ->
  fst (list_folder_items self kind d w) = rows_of kind data.
Proof.
  intros Hm. unfold after. rewrite (list_memoized _ _ _ _ Hm).
  destruct (entry w _ _) eqn:He; cbn [fst snd].
  - rewrite He. by intros [= ->].
  - destruct (loader_answer _ _ _ _); cbn [fst snd].
    + rewrite entry_stored. by intros [= ->].
    + rewrite entry_ran, He. discriminate.
Qed.

(** X5. A tables or views listing whose raw data, cached or fresh, is a
    list of [(schema, name)] tuples returns one row per tuple, in the
    adapter's order, tagged ["table"] or ["view"]; a procedures listing
    returns one row per name, tagged ["procedure"] with an empty schema. *)
Theorem listing_rows_in_order self kind d w data :
  memoized self kind ->
  entry (after self kind d w) (cache_key d) kind = Some data ->
  (kind = "tables" -> forall pairs,
     data = map SchemaMoreSamples.pair_row pairs ->
     fst (list_folder_items self kind d w)
       = Ok (map (fun p => ("table", p.1, p.2)) pairs)) /\
  (kind = "views" -> forall pairs,
     data = map SchemaMoreSamples.pair_row pairs ->
     fst (list_folder_items self kind d w)
       = Ok (map (fun p => ("view", p.1, p.2)) pairs)) /\
  (kind = "procedures" ->
     fst (list_folder_items self kind d w)
       = Ok (map (fun name => ("procedure", VStr "", name)) data)).
Proof.
  intros Hm He. rewrite (rows_from_entry _ _ _ _ _ Hm He).
  unfold rows_of. repeat split.
  - intros -> pairs ->. kind_cases. apply unpack_rows_pairs.
  - intros -> pairs ->. kind_cases. apply unpack_rows_pairs.
  - intros ->. by kind_cases.
Qed.

Lemma listing_rows_in_order_witness :
  fst (list_folder_items SchemaSamples.mock_service "tables" (Some "db1")
         SchemaSamples.fresh_world)
    = Ok [("table", VStr "public", VStr "users");
          ("table", VStr "public", VStr "accounts")].
Proof.
  destruct (listing_rows_in_order SchemaSamples.mock_service "tables"
              (Some "db1") SchemaSamples.fresh_world
              SchemaSamples.postgres_tables) as (H & _).
  - left. reflexivity.
  - reflexivity.
  - apply (H eq_refl [(VStr "public", VStr "users");
                      (VStr "public", VStr "accounts")]).
    reflexivity.
Defined.

Lemma sentinel_key d :
  d ∈ SchemaMoreSamples.sentinel_selectors -> cache_key d = "__default__".
Proof.
  unfold SchemaMoreSamples.sentinel_selectors. intros Hd.
  repeat (apply elem_of_cons in Hd as [->|Hd]); try reflexivity.
  by apply elem_of_nil in Hd.
Qed.

(** X6. No selector, the empty selector and a database named
    ["__default__"] share one partition: once a memoized listing for one
    of them has loaded its data, a listing for any of them is served from
    the cache with that data and does not reach the adapter, whatever the
    resolver makes of the selector. *)
Theorem sentinel_partition_shared self kind d d' w data :
  memoized self kind ->
  d ∈ SchemaMoreSamples.sentinel_selectors ->
  d' ∈ SchemaMoreSamples.sentinel_selectors ->
  entry w (cache_key d) kind = None ->
  loader_answer self kind (adapter_calls w) (_resolve_db_arg self d) = Ok data ->
  list_folder_items self kind d' (after self kind d w)
    = (rows_of kind data, after self kind d w).
Proof.
  intros Hm Hd Hd' He Ha.
  assert (Hk : cache_key d' = cache_key d)
    by (by rewrite !sentinel_key).
  unfold after at 1 2.
  rewrite (list_memoized _ _ d w Hm), He, Ha. cbn [snd].
  by rewrite (list_memoized _ _ d' _ Hm), Hk, entry_stored.
Qed.

Lemma sentinel_partition_shared_witness :
  list_folder_items SchemaSamples.implicit_db_service "tables" (Some "__default__")
    (after SchemaSamples.implicit_db_service "tables" None SchemaSamples.fresh_world)
  = (rows_of "tables" SchemaSamples.postgres_tables,
     after SchemaSamples.implicit_db_service "tables" None SchemaSamples.fresh_world).
Proof.
  apply (sentinel_partition_shared SchemaSamples.implicit_db_service "tables"
           None (Some "__default__") SchemaSamples.fresh_world).
  - left. reflexivity.
  - compute_done.
  - compute_done.
  - reflexivity.
  - reflexivity.
Defined.

End SchemaMoreFacts.

(** ** More about the connection flow *)

Module FlowMoreFacts.
Import Config Flow FlowMore FlowFacts.

(** *** Credential population *)

(** X7. Without a connection manager, credential population takes each
    missing password from the store under the configuration's name and
    changes nothing else: a password that is set is never replaced, and the
    name, the engine type and the other endpoint and tunnel fields stay as
    they are.  The early return is only a shortcut. *)
Theorem populate_fills_missing_only self config :
  connection_manager self = None ->
  populated_config self config
    = filled_from_store (credentials_service (services self)) config.
Proof.
  intros Hm. unfold populated_config, filled_from_store. rewrite Hm.
  destruct config as [n ty [[h po u [pw|]]|] [[sh sp su [spw|]]|]]; cbn.
  all: repeat match goal with
       | |- context [get_password ?s ?n] => destruct (get_password s n); cbn
       | |- context [get_ssh_password ?s ?n] =>
           destruct (get_ssh_password s n); cbn
       end; reflexivity.
Qed.

Lemma populate_fills_missing_only_witness :
  populated_config (flow_with_store full_store) Samples.cfg_no_db
    = Samples.cfg_full.
Proof.
  rewrite (populate_fills_missing_only (flow_with_store full_store)
             Samples.cfg_no_db); reflexivity.
Defined.

Lemma filled_from_store_twice store config :
  filled_from_store store (filled_from_store store config)
    = filled_from_store store config.
Proof.
  unfold filled_from_store.
  destruct config as [n ty [[h po u [pw|]]|] [[sh sp su [spw|]]|]]; cbn.
  all: repeat match goal with
       | |- context [get_password ?s ?n] => destruct (get_password s n); cbn
       | |- context [get_ssh_password ?s ?n] =>
           destruct (get_ssh_password s n); cbn
       end; reflexivity.
Qed.

Lemma populated_fallback self config :
  connection_manager self = None ->
  populated_config self config
    = filled_from_store (credentials_service (services self)) config.
Proof.
  intros Hm. unfold populated_config, filled_from_store. rewrite Hm.
  destruct config as [n ty [[h po u [pw|]]|] [[sh sp su [spw|]]|]]; cbn.
  all: repeat match goal with
       | |- context [get_password ?s ?n] => destruct (get_password s n); cbn
       | |- context [get_ssh_password ?s ?n] =>
           destruct (get_ssh_password s n); cbn
       end; reflexivity.
Qed.

(** X8. Without a connection manager, populating a configuration that has
    been populated changes nothing. *)
Theorem populate_idempotent self config :
  connection_manager self = None ->
  populated_config self (populated_config self config)
    = populated_config self config.
Proof.
  intros Hm. rewrite !(populated_fallback _ _ Hm).
  apply filled_from_store_twice.
Qed.

Lemma populate_idempotent_witness :
  populated_config (flow_with_store full_store)
    (populated_config (flow_with_store full_store) Samples.cfg_none)
  = populated_config (flow_with_store full_store) Samples.cfg_none.
Proof.
  apply (populate_idempotent (flow_with_store full_store) Samples.cfg_none).
  reflexivity.
Defined.

(** *** Prompts *)

Lemma populated_with_prompter self p config :
  populated_config (with_prompter self p) config = populated_config self config.
Proof. reflexivity. Qed.

(** The callbacks, the deferral and the two delivery rounds add up to the
    direct description. *)
Lemma trace_events self config :
  trace self config = flow_events self config.
Proof.
  unfold flow_events, db_stage_events, answer.
  set (c0 := populated_config self config).
  assert (Hc0 : populated_config self config = c0) by reflexivity.
  flow_unfold. rewrite !Hc0. clearbody c0.
  flow_run; reflexivity.
Qed.

Lemma answer_at_once r : answer (at_once r) = answer r.
Proof. by destruct r. Qed.

(** X9. What the flow does is the same whether the prompter answers
    inside the prompt call or later from the event loop: the same
    requests and the same [on_ready] call, in the same order. *)
Theorem trace_independent_of_reply_timing self config :
  trace (with_prompter self (answering_at_once <$> prompter self)) config
    = trace self config.
Proof.
  rewrite !trace_events. unfold flow_events, db_stage_events.
  rewrite populated_with_prompter.
  destruct (prompter self) as [p|]; cbn; [|reflexivity].
  rewrite !answer_at_once.
  destruct (needs_ssh_password _); [|reflexivity].
  destruct (answer (ssh_reply p _)); [|reflexivity].
  by rewrite answer_at_once.
Qed.

(** X10. Each password is asked for at most once in a flow, and a request
    for the SSH password, when there is one, is the first thing the flow
    does. *)
Theorem each_prompt_at_most_once self config :
  prompt_ssh_count (trace self config) <= 1 /\
  prompt_db_count (trace self config) <= 1 /\
  forall i c, trace self config !! i = Some (PromptSsh c) -> i = 0.
Proof.
  set (c0 := populated_config self config).
  assert (Hc0 : populated_config self config = c0) by reflexivity.
  flow_unfold. rewrite !Hc0. clearbody c0.
  flow_run.
  all: split; [cbv; lia|]; split; [cbv; lia|].
  all: intros i cx Hi.
  all: destruct i as [|[|[|i]]]; cbn in Hi; try done.
Qed.

(** X11. With a prompter registered, [on_ready] is called only when every
    prompt the flow requested was answered with a secret, and after a DB
    prompt the configuration it receives is the prompted one with that
    secret as endpoint password. *)
Theorem ready_only_after_answers self p config c :
  prompter self = Some p ->
  Ready c ∈ trace self config ->
  (forall c', PromptSsh c' ∈ trace self config ->
     exists pw, supplied (ssh_reply p c') pw) /\
  (forall c', PromptDb c' ∈ trace self config ->
     exists pw, supplied (db_reply p c') pw /\ c = with_endpoint c' pw).
Proof.
  intros Hp.
  set (c0 := populated_config self config).
  assert (Hc0 : populated_config self config = c0) by reflexivity.
  unfold supplied. flow_unfold. rewrite !Hc0, Hp. clearbody c0.
  flow_run.
  all: intros Hr; in_trace Hr; injection Hr as ->.
  all: split; intros c' Hc'; in_trace Hc'; injection Hc' as ->; eauto.
Qed.

Lemma ready_only_after_answers_witness :
  (forall c', PromptSsh c' ∈ trace Samples.flow_prompting Samples.cfg_none ->
     exists pw, supplied (ssh_reply Samples.prompter_supplying c') pw) /\
  (forall c', PromptDb c' ∈ trace Samples.flow_prompting Samples.cfg_none ->
     exists pw, supplied (db_reply Samples.prompter_supplying c') pw /\
       with_endpoint (with_tunnel Samples.cfg_none "s1") "secret1"
         = with_endpoint c' pw).
Proof.
  apply (ready_only_after_answers Samples.flow_prompting
           Samples.prompter_supplying Samples.cfg_none).
  - reflexivity.
  - vm_compute. do 2 apply list_elem_of_further. apply list_elem_of_here.
Defined.

End FlowMoreFacts.

(** ** Columns and definitions *)

Module SchemaDetailFacts.
Import Schema SchemaDetail.

(** X12. Column lists are never cached: every [list_columns] call hands
    one unit of work, with the table name, the resolved database argument
    and the schema, to the worker, leaves the cache as it is and returns
    what the adapter answers at that moment, so the second of two identical
    calls reaches the adapter again and sees the database as it then is. *)
Theorem list_columns_never_cached self database schema name w :
  let c := GetColumns name (_resolve_db_arg (base self) database) schema in
  let w1 := snd (list_columns self database schema name w) in
  let w2 := snd (list_columns self database schema name w1) in
  adapter_calls w2 = (adapter_calls w ++ [c; c])%list /\
  submitted w2 = (submitted w ++ [c; c])%list /\
  object_cache w2 = object_cache w /\
  fst (list_columns self database schema name w1)
    = get_columns (detail self) (adapter_calls w ++ [c])%list name
        (_resolve_db_arg (base self) database) schema.
Proof.
  cbn. rewrite <- !app_assoc. repeat split.
Qed.

(** A definition lookup for a kind whose extension interface the
    inspector does not implement returns none and leaves the world as it
    is. *)
Lemma definition_without_interface self database name table_name w :
  (index_inspector (schema_inspector (provider (session (base self)))) = None ->
   get_index_definition self database name table_name w = (Ok None, w)) /\
  (trigger_inspector (schema_inspector (provider (session (base self)))) = None ->
   get_trigger_definition self database name table_name w = (Ok None, w)) /\
  (sequence_inspector (schema_inspector (provider (session (base self)))) = None ->
   get_sequence_definition self database name w = (Ok None, w)).
Proof.
  unfold get_index_definition, get_trigger_definition, get_sequence_definition.
  split; [|split]; intros ->; reflexivity.
Qed.

(** X13. Definition lookups are gated by the interface alone, not by the
    capability flag.  When the inspector implements the index interface
    and the session's flag says indexes are unsupported, listing the
    indexes folder returns the empty list without reaching the adapter,
    while [get_index_definition] hands one unit of work with the resolved
    argument to the worker and returns the adapter's answer.  The same
    holds for triggers and sequences. *)
Theorem definition_ignores_capability_flag self database name table_name w wl :
  (supports_indexes (capabilities (provider (session (base self)))) = false ->
   is_Some (index_inspector (schema_inspector (provider (session (base self))))) ->
   list_folder_items (base self) "indexes" database wl = (Ok [], wl) /\
   get_index_definition self database name table_name w
     = (inspector_index_definition (detail self) (adapter_calls w) name
          table_name (_resolve_db_arg (base self) database),
        ran (GetIndexDefinition name table_name
               (_resolve_db_arg (base self) database)) w)) /\
  (supports_triggers (capabilities (provider (session (base self)))) = false ->
   is_Some (trigger_inspector (schema_inspector (provider (session (base self))))) ->
   list_folder_items (base self) "triggers" database wl = (Ok [], wl) /\
   get_trigger_definition self database name table_name w
     = (inspector_trigger_definition (detail self) (adapter_calls w) name
          table_name (_resolve_db_arg (base self) database),
        ran (GetTriggerDefinition name table_name
               (_resolve_db_arg (base self) database)) w)) /\
  (supports_sequences (capabilities (provider (session (base self)))) = false ->
   is_Some (sequence_inspector (schema_inspector (provider (session (base self))))) ->
   list_folder_items (base self) "sequences" database wl = (Ok [], wl) /\
   get_sequence_definition self database name w
     = (inspector_sequence_definition (detail self) (adapter_calls w) name
          (_resolve_db_arg (base self) database),
        ran (GetSequenceDefinition name
               (_resolve_db_arg (base self) database)) w)).
Proof.
  unfold get_index_definition, get_trigger_definition, get_sequence_definition,
    list_folder_items.
  split; [|split]; intros Hcap [g Hg]; rewrite Hg.
  all: split; [|reflexivity].
  all: SchemaFacts.kind_cases; by rewrite Hcap.
Qed.

(** The mock table gains a column between two identical calls, and the
    second call sees it. *)
Example list_columns_sees_new_column :
  let w1 := snd (list_columns mock_detail_service (Some "db1") None "users"
                   SchemaDetail.fresh_world) in
  fst (list_columns mock_detail_service (Some "db1") None "users"
         SchemaDetail.fresh_world) = Ok [VStr "id"] /\
  fst (list_columns mock_detail_service (Some "db1") None "users" w1)
    = Ok [VStr "id"; VStr "email"].
Proof. split; reflexivity. Qed.

Example index_definition_without_flag :
  list_folder_items (base undeclared_index_service) "indexes" None
    SchemaSamples.fresh_world = (Ok [], SchemaSamples.fresh_world) /\
  fst (get_index_definition undeclared_index_service None "ix_users" "users"
         SchemaDetail.fresh_world) = Ok (Some (VStr "ix_users")).
Proof. split; reflexivity. Qed.

End SchemaDetailFacts.

(** ** Query text area *)

Module TextAreaFacts.
Import TextArea.
#[local] Open Scope list_scope.

Lemma normalization_targets_fixed :
  map_Forall (fun _ v => _KEY_NORMALIZATION !! v = None) _KEY_NORMALIZATION.
Proof. compute_done. Qed.

(** X14. Key normalization is idempotent: a normalized key is left as it
    is by a second normalization. *)
Theorem normalize_key_idempotent key :
  _normalize_key (_normalize_key key) = _normalize_key key.
Proof.
  unfold _normalize_key at 2 3.
  destruct (_KEY_NORMALIZATION !! key) as [v|] eqn:Hk; cbn.
  - unfold _normalize_key.
    by rewrite (normalization_targets_fixed _ _ Hk).
  - unfold _normalize_key. by rewrite Hk.
Qed.

Ltac key_cases :=
  repeat first
    [ case_bool_decide
    | case_decide
    | match goal with
      | |- context [if negb ?b then _ else _] => destruct b eqn:?; cbn [negb]
      | |- context [if ?b then _ else _] => destruct b eqn:?
      | |- context [let '(_, _) := ?p in _] => destruct p eqn:?
      end ].

Lemma push_undo_cases app self :
  _push_undo_if_changed app self = ([], self) \/
  (text self <> _last_text self /\
   _push_undo_if_changed app self
     = (call_if_present app "_push_undo_state",
        {| text := text self; _last_text := text self |})).
Proof. unfold _push_undo_if_changed. case_decide; eauto. Qed.

(** X15. Outside insert mode the clipboard shortcuts (select all, copy,
    paste, in any of their variants) are swallowed: the event is stopped
    and its default prevented, no application action runs, no undo state
    is pushed and the default handler does not see the key. *)
Theorem clipboard_blocked_outside_insert app self key :
  _normalize_key key ∈ ["ctrl+a"; "ctrl+c"; "ctrl+v"] ->
  _is_insert_mode app = false ->
  _on_key app self key = ([PreventDefault; Stop], self).
Proof.
  intros Hk Hm. unfold _on_key. cbv zeta.
  rewrite bool_decide_eq_true_2 by done. by rewrite Hm.
Qed.

Lemma clipboard_blocked_outside_insert_witness :
  _on_key (full_app OTHER) edited "super+shift+v" = ([PreventDefault; Stop], edited).
Proof.
  apply (clipboard_blocked_outside_insert (full_app OTHER) edited "super+shift+v").
  - compute_done.
  - reflexivity.
Defined.

Lemma quiet_call app method : quiet (call_if_present app method).
Proof. unfold call_if_present, quiet. destruct (has_attr app method); by repeat constructor. Qed.

Lemma quiet_push app self : quiet (_push_undo_if_changed app self).1.
Proof.
  destruct (push_undo_cases app self) as [->|[_ ->]]; cbn;
    [constructor | apply quiet_call].
Qed.

Lemma quiet_app l1 l2 : quiet l1 -> quiet l2 -> quiet (l1 ++ l2).
Proof. apply Forall_app_2. Qed.

Lemma quiet_not_elem l e :
  quiet l ->
  match e with AppCall _ | SuppressAutocompleteOnNewline => False | _ => True end ->
  e ∉ l.
Proof.
  intros Hq He Hin. unfold quiet in Hq. rewrite Forall_forall in Hq.
  specialize (Hq _ Hin). by destruct e.
Qed.

Lemma on_key_intercepted app self key :
  _normalize_key key ∈ intercepted ->
  exists pre, quiet pre /\ (_on_key app self key).1 = pre ++ [PreventDefault; Stop].
Proof.
  unfold intercepted, _on_key. intros Hk. cbv zeta.
  case_bool_decide as H3.
  - destruct (_is_insert_mode app); cbn [negb].
    + case_decide as Ha; [|case_decide as Hc; [|case_decide as Hv]].
      * eexists; split; [apply quiet_call | reflexivity].
      * eexists; split; [apply quiet_call | reflexivity].
      * pose proof (quiet_push app self) as Hq.
        destruct (_push_undo_if_changed app self) as [pushed self'].
        exists (pushed ++ call_if_present app "action_paste").
        split; [apply quiet_app; [done | apply quiet_call]|].
        cbn. by rewrite <- app_assoc.
      * exfalso.
        repeat (apply elem_of_cons in H3 as [H3|H3]); try contradiction.
        by apply elem_of_nil in H3.
    + exists []. split; [constructor | reflexivity].
  - case_decide as Hz; [|case_decide as Hy].
    + eexists; split; [apply quiet_call | reflexivity].
    + eexists; split; [apply quiet_call | reflexivity].
    + exfalso. apply H3.
      repeat (apply elem_of_cons in Hk as [Hk|Hk]);
        try (apply elem_of_nil in Hk; contradiction);
        try contradiction; rewrite Hk; compute_done.
Qed.

Lemma on_key_default app self key :
  _normalize_key key ∉ intercepted ->
  exists pre, quiet pre /\ (_on_key app self key).1 = pre ++ [SuperOnKey key].
Proof.
  unfold intercepted, _on_key. intros Hk. cbv zeta.
  do 5 (apply not_elem_of_cons in Hk as [? Hk]).
  rewrite bool_decide_eq_false_2
    by (repeat (apply not_elem_of_cons; split; [done|]); apply not_elem_of_nil).
  rewrite !decide_False by done.
  set (on_enter := if decide (key = "enter") then _ else _).
  assert (Hq : quiet on_enter).
  { unfold on_enter. case_decide; [|constructor].
    destruct (autocomplete_visible app); [|constructor].
    apply quiet_app; [apply quiet_call | by repeat constructor]. }
  destruct (_is_text_modifying_key _).
  - pose proof (quiet_push app self) as Hp.
    destruct (_push_undo_if_changed app self) as [pushed self'].
    exists (on_enter ++ pushed). split; [by apply quiet_app|].
    cbn. by rewrite <- app_assoc.
  - exists on_enter. split; [done|]. reflexivity.
Qed.

(** X16. The five shortcuts the widget handles itself never reach the
    default handler and always end with the event's default prevented and
    the event stopped; every other key reaches the default handler as the
    last step, as the key that was pressed and not in its normalized form,
    with the event neither stopped nor its default prevented. *)
Theorem default_handler_iff_not_intercepted app self key :
  (_normalize_key key ∈ intercepted ->
   (forall k, SuperOnKey k ∉ (_on_key app self key).1) /\
   exists pre, (_on_key app self key).1 = pre ++ [PreventDefault; Stop]) /\
  (_normalize_key key ∉ intercepted ->
   exists pre,
     (_on_key app self key).1 = pre ++ [SuperOnKey key] /\
     (PreventDefault ∉ pre) /\ (Stop ∉ pre) /\ forall k, SuperOnKey k ∉ pre).
Proof.
  split; intros Hk.
  - destruct (on_key_intercepted app self key Hk) as (pre & Hq & ->).
    split; [|eauto].
    intros k Hin. apply elem_of_app in Hin as [Hin|Hin].
    + by apply (quiet_not_elem _ _ Hq) in Hin.
    + repeat (apply elem_of_cons in Hin as [Hin|Hin]); try discriminate Hin.
      by apply elem_of_nil in Hin.
  - destruct (on_key_default app self key Hk) as (pre & Hq & ->).
    exists pre. split; [done|].
    split; [by apply quiet_not_elem|].
    split; [by apply quiet_not_elem|].
    intros k. by apply quiet_not_elem.
Qed.

(** *** Undo snapshots *)







(** X18. Taking the undo snapshot twice in a row pushes at most once: right
    after [_push_undo_if_changed], a second call does nothing. *)
Theorem push_undo_twice app self :
  _push_undo_if_changed app (_push_undo_if_changed app self).2
    = ([], (_push_undo_if_changed app self).2).
Proof.
  destruct (push_undo_cases app self) as [H|[Hne H]]; rewrite H; cbn [snd].
  - exact H.
  - unfold _push_undo_if_changed. cbn [text _last_text].
    by rewrite decide_False by (intros Hx; by apply Hx).
Qed.

End TextAreaFacts.

(** ** Results table *)

Module DataTableFacts.
Import DataTable.
#[local] Open Scope Z_scope.

(** X19. With the header hidden, no screen line at or below the top shows
    table line 0, the header row, whatever the scroll position. *)
Theorem hidden_header_never_rendered self y :
  show_header self = false ->
  0 <= y -> 0 <= scroll_y self ->
  1 <= line (render_line self y).
Proof.
  intros Hh Hy Hs. unfold render_line. rewrite Hh. cbn.
  case_bool_decide; lia.
Qed.

Lemma hidden_header_never_rendered_witness :
  1 <= line (render_line (headless 5) 0).
Proof.
  apply (hidden_header_never_rendered (headless 5) 0); [reflexivity | lia | cbn; lia].
Defined.

(** X20. With a scroll offset that is not negative, lower screen lines show
    later table lines: the line handed to the renderer grows strictly with
    the screen line, so no two screen lines show the same table line. *)
Theorem render_line_increasing self y1 y2 :
  0 <= scroll_y self ->
  y1 < y2 ->
  line (render_line self y1) < line (render_line self y2).
Proof.
  intros Hs Hy. unfold render_line. cbn.
  destruct (show_header self); cbn; repeat case_bool_decide; lia.
Qed.

Lemma render_line_increasing_witness :
  line (render_line (headless 5) 1) < line (render_line (headless 5) 2).
Proof.
  apply (render_line_increasing (headless 5) 1 2); [cbn; lia | lia].
Defined.

End DataTableFacts.

(** ** Interface state machine *)

Module StateMachineFacts.
Import StateMachine.

Lemma first_active_split states app s :
  first_active states app = Some s ->
  exists before after,
    states = (before ++ s :: after)%list /\
    Forall (fun s' => is_active s' app = false) before /\
    is_active s app = true.
Proof.
  induction states as [|s0 rest IH]; [done|]. cbn.
  destruct (is_active s0 app) eqn:Ha.
  - intros [= <-]. exists [], rest. by repeat split.
  - intros (before & after & -> & Hb & Hs)%IH.
    exists (s0 :: before), after. repeat split; [|done]. by constructor.
Qed.

Lemma first_active_none states app :
  first_active states app = None ->
  Forall (fun s' => is_active s' app = false) states.
Proof.
  induction states as [|s0 rest IH]; [constructor|]. cbn.
  destruct (is_active s0 app) eqn:Ha; [done|].
  intros H. constructor; [done | by apply IH].
Qed.

(** X21. The active state is the first state of the priority list that is
    active: every state listed before it is inactive, and it is active
    itself unless nothing is, in which case it is the root.  In
    particular the main screen is the active state only when no modal is
    open and no query is running. *)
Theorem active_state_is_first_active app :
  (exists before after,
     _states = (before ++ get_active_state app :: after)%list /\
     Forall (fun s => is_active s app = false) before /\
     (is_active (get_active_state app) app = true \/
      (get_active_state app = RootState /\ after = []))) /\
  (get_active_state app = MainScreenState ->
   modal_open app = false /\ query_executing app = false).
Proof.
  unfold get_active_state.
  destruct (first_active _states app) as [s|] eqn:Hf.
  - destruct (first_active_split _ _ _ Hf) as (before & after & Hs & Hb & Ha).
    split; [exists before, after; eauto|].
    intros ->. cbn in Ha.
    destruct (modal_open app); [done|]. by destruct (query_executing app).
  - pose proof (first_active_none _ _ Hf) as Hn. split; [|done].
    exists (removelast _states), []. split; [reflexivity|]. split; [|by right].
    cbn. by repeat (apply Forall_cons_1 in Hn as [? Hn]; constructor; [done|]).
Qed.

(** X22. The priority list holds each of the nineteen states exactly once,
    and every state comes before its parent, so a child is always tried
    before the state it specializes and the root is tried last. *)
Theorem states_listed_before_parents :
  NoDup _states /\
  (forall s, s ∈ _states) /\
  (forall s p, parent s = Some p ->
     exists i j, index_of s _states = Some i /\
                 index_of p _states = Some j /\ i < j).
Proof.
  split; [compute_done|]. split.
  - intros s. destruct s; compute_done.
  - intros s p Hp. destruct s; try discriminate Hp; injection Hp as <-.
    all: do 2 eexists; split; [vm_compute; reflexivity|].
    all: split; [vm_compute; reflexivity | lia].
Qed.

Example results_pane_active :
  get_active_state browsing_results = ResultsFocusedState.
Proof. reflexivity. Qed.

End StateMachineFacts.

(** ** Mock adapter *)

Module MocksFacts.
Import Schema Mocks.
#[local] Open Scope list_scope.

(** X23. A mock cursor always has rows and columns: leaving the results
    or the columns out, or passing an empty list, gives the built-in ones,
    so [fetchone] never returns none and is the first row of [fetchall], and
    the description has one entry per column and is not empty. *)
Theorem mock_cursor_never_empty results columns :
  is_Some (fetchone (MockCursor_init results columns)) /\
  fetchone (MockCursor_init results columns)
    = head (fetchall (MockCursor_init results columns)) /\
  length (description (MockCursor_init results columns))
    = length (cursor_columns (MockCursor_init results columns)) /\
  0 < length (description (MockCursor_init results columns)) /\
  MockCursor_init (Some []) (Some []) = MockCursor_init None None.
Proof.
  unfold MockCursor_init, fetchone, fetchall. cbn.
  destruct results as [[|r rs]|], columns as [[|c cs]|]; cbn;
    rewrite ?length_map; repeat split; eauto with lia.
Qed.

Section Runtime.
Context (lower strip : string -> string).

Lemma execute_query_limited self query max_rows :
  execute_query lower strip self query max_rows
    = limited (selected lower strip self query) max_rows.
Proof.
  unfold execute_query, selected. by destruct (first_match _ _ _).
Qed.

(** X24. With a positive row limit [n], [execute_query] returns the
    columns of the result the query picks and the first [n] of its rows,
    never more than [n], and reports truncation exactly when rows were
    left out. *)
Theorem row_limit_respected self query n :
  (0 < n)%Z ->
  (execute_query lower strip self query (Some n)).1.1
    = (selected lower strip self query).1 /\
  (execute_query lower strip self query (Some n)).1.2
    = take (Z.to_nat n) (selected lower strip self query).2 /\
  (Z.of_nat (length (execute_query lower strip self query (Some n)).1.2) <= n)%Z /\
  ((execute_query lower strip self query (Some n)).2 = true <->
   length (execute_query lower strip self query (Some n)).1.2
     < length (selected lower strip self query).2).
Proof.
  intros Hn. rewrite execute_query_limited.
  destruct (selected lower strip self query) as [cols rows].
  unfold limited, slice_to. cbn [fst snd].
  rewrite (bool_decide_eq_true_2 (n <> 0)%Z) by lia. cbn [andb].
  case_bool_decide as Hlen; cbn [fst snd].
  - rewrite bool_decide_eq_true_2 by lia.
    rewrite length_take. repeat split; try lia.
  - rewrite take_ge by lia. repeat split; try lia; try discriminate.
Qed.

(** X25. A row limit of zero is no limit: it gives what no limit gives,
    every row of the picked result, not reported as truncated. *)
Theorem zero_limit_is_no_limit self query :
  execute_query lower strip self query (Some 0%Z)
    = execute_query lower strip self query None /\
  execute_query lower strip self query None
    = ((selected lower strip self query).1,
       (selected lower strip self query).2, false).
Proof.
  rewrite !execute_query_limited.
  by destruct (selected lower strip self query) as [cols rows].
Qed.

(** X26. A negative row limit [n] cuts the last [-n] rows off the picked
    result and always reports truncation, even when the result has no
    rows. *)
Theorem negative_limit_cuts_tail self query n :
  (n < 0)%Z ->
  execute_query lower strip self query (Some n)
    = ((selected lower strip self query).1,
       take (length (selected lower strip self query).2 - Z.to_nat (- n))
         (selected lower strip self query).2,
       true).
Proof.
  intros Hn. rewrite execute_query_limited.
  destruct (selected lower strip self query) as [cols rows].
  unfold limited, slice_to. cbn [fst snd].
  rewrite (bool_decide_eq_true_2 (n <> 0)%Z) by lia.
  rewrite (bool_decide_eq_true_2 (_ > n)%Z) by lia. cbn [andb].
  rewrite bool_decide_eq_false_2 by lia.
  do 3 f_equal. lia.
Qed.

Lemma str_or_nonempty x d : d <> "" -> str_or x d <> "".
Proof. by destruct x as [[|a s]|]. Qed.

(** X27. Whatever arguments the mock adapter is built with, a failed
    [connect] raises the connect error or the authentication error the
    adapter holds, and neither is empty: the constructor replaces an empty
    message by its default, so the "Missing required fields" text is never
    raised. *)
Theorem connect_failure_messages args config e :
  connect (MockDatabaseAdapter_init lower strip args) config = Raise e ->
  (e = _connect_error (MockDatabaseAdapter_init lower strip args) \/
   e = _auth_error (MockDatabaseAdapter_init lower strip args)) /\
  e <> "".
Proof.
  set (self := MockDatabaseAdapter_init lower strip args).
  assert (Hce : _connect_error self <> "") by (by apply str_or_nonempty).
  assert (Hae : _auth_error self <> "") by (by apply str_or_nonempty).
  unfold connect. clearbody self.
  destruct (negb _); [intros [= <-]; by eauto|].
  destruct (_required_fields self) as [|f fs];
    [|destruct (List.filter _ _) as [|m ms]].
  3: { destruct (_connect_error self) as [|a s]; [done|].
       intros [= <-]. by eauto. }
  all: destruct (_allowed_connections self); [done|].
  all: destruct (negb _); [intros [= <-]; by eauto | done].
Qed.

End Runtime.

Lemma connect_failure_messages_witness :
  ("Connection failed"
     = _connect_error (MockDatabaseAdapter_init id id (requiring ["server"])) \/
   "Connection failed"
     = _auth_error (MockDatabaseAdapter_init id id (requiring ["server"]))) /\
  "Connection failed" <> "".
Proof.
  apply (connect_failure_messages id id (requiring ["server"]) ∅).
  reflexivity.
Defined.

Lemma row_limit_respected_witness :
  (execute_query id id (MockDatabaseAdapter_init id id (requiring []))
     "select 1" (Some 1%Z)).1.2
  = take 1 (selected id id (MockDatabaseAdapter_init id id (requiring []))
              "select 1").2.
Proof.
  destruct (row_limit_respected id id
              (MockDatabaseAdapter_init id id (requiring [])) "select 1" 1)
    as (_ & H & _); [lia | exact H].
Defined.

Lemma negative_limit_cuts_tail_witness :
  execute_query id id (MockDatabaseAdapter_init id id (requiring []))
    "select 1" (Some (-1)%Z)
  = (["id"; "name"], [[CInt 1; CStr "Sample Row 1"]], true).
Proof.
  rewrite (negative_limit_cuts_tail id id
             (MockDatabaseAdapter_init id id (requiring [])) "select 1" (-1));
    [reflexivity | lia].
Defined.





End MocksFacts.
